(** * go-pushbullet: a shallow embedding of [pushbullet.go]

    The client in [pushbullet.go] builds authenticated HTTP requests, sends
    them through an injected [http.Client] and decodes the answer.  This
    development embeds the package together with the Go standard-library
    routines it calls ([net/url] escaping, [url.Values], [base64.StdEncoding],
    [strconv.Itoa]) and proves the request-shaping properties of the client.

    Conventions:
    - a Go [string] is a sequence of bytes: Rocq's [string] (of [ascii]);
    - a Go [int] is a [Z];
    - a Go map is a reference: [url.Values] is [option loc] ([None] is the
      nil map) pointing into a store of [gmap string (list string)];
    - a function with side effects is a state transformer over [World] that
      either returns or panics;
    - [http.NewRequest]'s check of the URL and the JSON decoder are
      parameters of the package.

    Names follow the source.  Where Rocq needs another one: the fields
    [Client.Client], [Request.Header] and [deviceResponse.Devices] are
    [Client_http], [Header_] and [Devices_], and [Values.Set] is [Set_]. *)

From Stdlib Require Import ZArith NArith Ascii String List Lia.
From stdpp Require Import base option list strings gmap sorting pretty.

Local Open Scope string_scope.
Local Open Scope list_scope.

(** ** Go errors *)

(** The error values that flow through the package.  [errorString] is what
    [errors.New] builds; the others are produced by library code and are
    only passed along. *)
Inductive error : Type :=
| errorString (s : string)      (* errors.New(s) *)
| EscapeError (s : string)      (* net/url: invalid URL escape *)
| urlError (s : string)         (* net/http: the exchange did not complete *)
| jsonError (s : string)        (* encoding/json: the body did not decode *)
| runtimeError (s : string).    (* a run-time panic of the Go runtime *)

Global Instance error_eq_dec : EqDecision error.
Proof. solve_decision. Defined.

(** ** Bytes *)

Module Byte8.

Definition val (c : ascii) : N := N_of_ascii c.
Definition of_N (n : N) : ascii := ascii_of_N (n mod 256).

(** [lo <= c && c <= hi] on bytes. *)
Definition between (lo hi c : ascii) : bool :=
  (val lo <=? val c)%N && (val c <=? val hi)%N.

End Byte8.

(** ** net/url: escaping *)

Module url.

Import Byte8.

(** The two escaping modes the package reaches: [url.UserPassword] and
    [Values.Encode]. *)
Inductive encoding : Type :=
| encodeUserPassword
| encodeQueryComponent.

Definition is_query (mode : encoding) : bool :=
  match mode with encodeQueryComponent => true | encodeUserPassword => false end.

Definition upperhex : string := "0123456789ABCDEF".

(** [upperhex[i]] *)
Definition upperhex_at (i : N) : ascii :=
  match String.get (N.to_nat i) upperhex with
  | Some c => c
  | None => "0"%char
  end.

Definition ishex (c : ascii) : bool :=
  between "0" "9" c || between "a" "f" c || between "A" "F" c.

Definition unhex (c : ascii) : N :=
  if between "0" "9" c then (val c - val "0")%N
  else if between "a" "f" c then (val c - val "a" + 10)%N
  else if between "A" "F" c then (val c - val "A" + 10)%N
  else 0%N.

Definition one_of (cs : string) (c : ascii) : bool :=
  bool_decide (c ∈ list_ascii_of_string cs).

(** [shouldEscape(c, mode)]: unreserved characters are never escaped,
    the reserved ones depend on the mode, everything else is escaped. *)
Definition shouldEscape (c : ascii) (mode : encoding) : bool :=
  if between "a" "z" c || between "A" "Z" c || between "0" "9" c then false
  else if one_of "-_.~" c then false
  else if one_of "$&+,/:;=?@" c then
    match mode with
    | encodeUserPassword => one_of "@/?:" c
    | encodeQueryComponent => true
    end
  else true.

(** [escape(s, mode)] *)
Fixpoint escape (s : string) (mode : encoding) : string :=
  match s with
  | EmptyString => EmptyString
  | String c s' =>
      if Ascii.eqb c " " && is_query mode then
        String "+" (escape s' mode)
      else if shouldEscape c mode then
        String "%"
          (String (upperhex_at (N.shiftr (val c) 4))
             (String (upperhex_at (N.land (val c) 15)) (escape s' mode)))
      else String c (escape s' mode)
  end.

(** [unescape(s, mode)].  Go validates every [%] first and then rewrites;
    the first malformed [%] (from the left) decides the error, which is
    what a single left-to-right pass reports too. *)
Fixpoint unescape (s : string) (mode : encoding) : string + error :=
  match s with
  | EmptyString => inl EmptyString
  | String c rest =>
      if Ascii.eqb c "%" then
        match rest with
        | String a (String b rest') =>
            if ishex a && ishex b then
              match unescape rest' mode with
              | inl t =>
                  inl (String (of_N (N.lor (N.shiftl (unhex a) 4) (unhex b))) t)
              | inr e => inr e
              end
            else inr (EscapeError (String c (String a (String b EmptyString))))
        | _ => inr (EscapeError s)
        end
      else
        match unescape rest mode with
        | inl t =>
            inl (String (if Ascii.eqb c "+" && is_query mode then " "%char else c) t)
        | inr e => inr e
        end
  end.

Definition QueryEscape (s : string) : string := escape s encodeQueryComponent.
Definition QueryUnescape (s : string) : string + error :=
  unescape s encodeQueryComponent.

(** [url.UserPassword(username, password).String()]: both parts are
    escaped in [encodeUserPassword] mode and joined by a colon. *)
Record Userinfo : Type := mkUserinfo {
  username : string;
  password : string;
  passwordSet : bool
}.

Definition UserPassword (username password : string) : Userinfo :=
  mkUserinfo username password true.

Definition Userinfo_String (u : Userinfo) : string :=
  let s := escape (username u) encodeUserPassword in
  if passwordSet u then s +:+ ":" +:+ escape (password u) encodeUserPassword
  else s.

(** *** Vocabulary for the statements about escaping *)

(** Bytes that mean something to the query syntax: they start an escape,
    stand for a space, or separate pairs, keys and values. *)
Definition special (c : ascii) : bool := one_of "%+&=;" c.

(** The escaped text contains none of the separators of the query
    syntax. *)
Fixpoint no_special (s : string) : bool :=
  match s with
  | EmptyString => true
  | String c s' => negb (one_of "&=;" c) && no_special s'
  end.

(** In user-info mode a string of letters, digits and the marks that the
    mode lets through is left as it is. *)
Definition userinfo_safe (s : string) : bool :=
  forallb (λ c, negb (shouldEscape c encodeUserPassword)) (list_ascii_of_string s).

End url.

(** ** encoding/base64 *)

Module base64.

Import Byte8.

Definition encodeStd : string :=
  "ABCDEFGHIJKLMNOPQRSTUVWXYZabcdefghijklmnopqrstuvwxyz0123456789+/".

Definition StdPadding : ascii := "="%char.

(** [enc.encode[i]] *)
Definition encode_at (i : N) : ascii :=
  match String.get (N.to_nat i) encodeStd with
  | Some c => c
  | None => "A"%char
  end.

Definition sextet (v : N) (shift : N) : ascii :=
  encode_at (N.land (N.shiftr v shift) 63).

(** [StdEncoding.EncodeToString]: three bytes become four characters;
    a remainder of one or two bytes is padded with [=]. *)
Fixpoint EncodeToString (src : string) : string :=
  match src with
  | EmptyString => EmptyString
  | String a EmptyString =>
      let v := N.shiftl (val a) 16 in
      String (sextet v 18) (String (sextet v 12)
        (String StdPadding (String StdPadding EmptyString)))
  | String a (String b EmptyString) =>
      let v := N.lor (N.shiftl (val a) 16) (N.shiftl (val b) 8) in
      String (sextet v 18) (String (sextet v 12) (String (sextet v 6)
        (String StdPadding EmptyString)))
  | String a (String b (String c rest)) =>
      let v := N.lor (N.lor (N.shiftl (val a) 16) (N.shiftl (val b) 8)) (val c) in
      String (sextet v 18) (String (sextet v 12) (String (sextet v 6)
        (String (sextet v 0) (EncodeToString rest))))
  end.

End base64.

(** ** strconv *)

Module strconv.

(** [strconv.Itoa]: the decimal digits of [i], with a leading minus sign
    for negative numbers. *)
Definition Itoa (i : Z) : string := pretty i.

End strconv.

(** ** net/url: form values *)

Module Values.

Import url.

(** The contents of a non-nil [url.Values]: [map[string][]string]. *)
Abbreviation t := (gmap string (list string)).

(** [v[key]], which is the nil slice for a missing key. *)
Definition at_key (v : t) (key : string) : list string :=
  default [] (v !! key).

(** [v.Set(key, value)]: [v[key] = []string{value}]. *)
Definition Set_ (v : t) (key value : string) : t := <[key := [value]]> v.

(** The keys of [v], collected by ranging over the map and then sorted
    ([sort.Strings] compares byte-wise, as [String.le] does). *)
Definition sorted_keys (v : t) : list string :=
  merge_sort String.le (map_to_list v).*1.

(** One round of the inner loop of [Encode]: write [&] unless the buffer
    is still empty, then [key=value], both escaped. *)
Definition write_pair (keyEscaped : string) (buf : string) (x : string) : string :=
  (match buf with EmptyString => buf | _ => buf +:+ "&" end)
    +:+ keyEscaped +:+ "=" +:+ QueryEscape x.

(** [v.Encode()] *)
Definition Encode (v : t) : string :=
  if decide (size v = 0) then ""
  else
    foldl (λ buf k, foldl (write_pair (QueryEscape k)) buf (at_key v k))
      "" (sorted_keys v).

(** [strings.Cut(s, sep)] for a one-byte separator. *)
Fixpoint Cut (sep : ascii) (s : string) : string * string * bool :=
  match s with
  | EmptyString => (EmptyString, EmptyString, false)
  | String c s' =>
      if Ascii.eqb c sep then (EmptyString, s', true)
      else let '(before, after, found) := Cut sep s' in
           (String c before, after, found)
  end.

(** [strings.Contains(s, sep)] for a one-byte separator. *)
Fixpoint Contains (sep : ascii) (s : string) : bool :=
  match s with
  | EmptyString => false
  | String c s' => Ascii.eqb c sep || Contains sep s'
  end.

(** The successive values of [key] in
    [for query != "" { key, query, _ = strings.Cut(query, "&") ... }]:
    the pieces of [query] between ampersands.  (The piece after a final
    ampersand is empty; the loop stops before it and skips empty pieces
    anyway.) *)
Fixpoint pieces (query : string) : list string :=
  match query with
  | EmptyString => [EmptyString]
  | String c rest =>
      if Ascii.eqb c "&" then EmptyString :: pieces rest
      else match pieces rest with
           | [] => [String c EmptyString]
           | p :: ps => String c p :: ps
           end
  end.

Definition first_error (err : option error) (err1 : error) : option error :=
  match err with None => Some err1 | Some _ => err end.

(** The body of the loop of [parseQuery] for one piece. *)
Definition parse_piece (st : t * option error) (key : string) : t * option error :=
  let '(m, err) := st in
  if Contains ";" key then
    (m, Some (errorString "invalid semicolon separator in query"))
  else
    match key with
    | EmptyString => (m, err)
    | _ =>
        let '(k, x, _) := Cut "=" key in
        match QueryUnescape k with
        | inr err1 => (m, first_error err err1)
        | inl k' =>
            match QueryUnescape x with
            | inr err1 => (m, first_error err err1)
            | inl x' => (<[k' := (at_key m k' ++ [x'])%list]> m, err)
            end
        end
    end.

(** [url.ParseQuery(query)]: the decoded form and the first error met. *)
Definition ParseQuery (query : string) : t * option error :=
  foldl parse_piece (∅, None) (pieces query).

(** The key/value pairs of a form, as a list: every key with each of
    its values, in the order of the slice. *)
Definition pairs_at (v : t) (keys : list string) : list (string * string) :=
  keys ≫= λ k, pair k <$> at_key v k.

Definition pairs (v : t) : list (string * string) :=
  pairs_at v (sorted_keys v).

(** *** Vocabulary for the statements about forms *)

(** One encoded pair, and pairs joined by ampersands: the text that
    [Encode] writes, described from the right. *)
Definition enc_pair (p : string * string) : string :=
  QueryEscape p.1 +:+ "=" +:+ QueryEscape p.2.

Fixpoint join (ps : list string) : string :=
  match ps with
  | [] => ""
  | p :: ps' =>
      match ps' with
      | [] => p
      | _ => p +:+ "&" +:+ join ps'
      end
  end.

(** What [parseQuery] does with one decoded pair. *)
Definition add_pair (m : t) (p : string * string) : t :=
  <[p.1 := (at_key m p.1 ++ [p.2])%list]> m.

(** [Encode] run on a list of pairs, from a buffer. *)
Definition write_all (ps : list (string * string)) (buf : string) : string :=
  foldl (λ buf p, write_pair (QueryEscape p.1) buf p.2) buf ps.

(** Every pair of [ps], each preceded by an ampersand. *)
Definition amp_all (ps : list (string * string)) : string :=
  foldr (λ p acc, String "&" (enc_pair p +:+ acc)) "" ps.

(** The form read back from an encoded body. *)
Definition decoded (v : t) : t := foldl add_pair ∅ (pairs v).

(** The values that a list of pairs holds for the key [k], in order. *)
Definition values_of (k : string) (ps : list (string * string)) : list string :=
  (filter (λ p, p.1 = k) ps).*2.

(** No key is bound to the empty slice. *)
Definition no_empty (m : t) : Prop := ∀ k vs, m !! k = Some vs → vs ≠ [].

End Values.

(** ** The Go heap, panics and the outside world *)

(** Addresses of heap-allocated maps. *)
Abbreviation loc := positive.

Module http.

(** [http.Header] with [Set]; the two keys used by the package are
    already in canonical form. *)
Abbreviation Header := (gmap string (list string)).

Definition Header_Set (h : Header) (key value : string) : Header :=
  <[key := [value]]> h.

(** The parts of [http.Request] the package touches.  [Body = None] is the
    nil body of a request built without one. *)
Record Request : Type := mkRequest {
  Method : string;
  URL : string;
  Header_ : Header;
  Body : option string
}.

(** The parts of [http.Response] the package reads. *)
Record Response : Type := mkResponse {
  Status : string;
  StatusCode : Z;
  RespBody : string
}.

Definition StatusOK : Z := 200.

(** What [Do] hands back: a response or an error. *)
Abbreviation reply := (Response + error)%type.

(** An [*http.Client]: given the exchanges made so far and a request, it
    answers.  Callers inject it ([NewWithClient]); the package never looks
    inside. *)
Definition Client : Type := list (Request * reply) → Request → reply.

End http.

(** The state a call can read and change: the maps on the heap and the
    exchanges made with the server so far. *)
Record World : Type := mkWorld {
  heap : gmap loc Values.t;
  trace : list (http.Request * http.reply)
}.

Inductive outcome (A : Type) : Type :=
| Returned (a : A)
| Panicked (v : error).
Arguments Returned {A} a.
Arguments Panicked {A} v.

(** A computation of the package: from a world to an outcome and the world
    it leaves behind. *)
Definition Go (A : Type) : Type := World → outcome A * World.

Global Instance Go_ret : MRet Go := λ A a w, (Returned a, w).
Global Instance Go_bind : MBind Go := λ A B f m w,
  match m w with
  | (Returned a, w') => f a w'
  | (Panicked v, w') => (Panicked v, w')
  end.

Definition panic {A : Type} (v : error) : Go A := λ w, (Panicked v, w).

(** The map behind a reference.  Go has no dangling references; an address
    that was never written denotes the empty map. *)
Definition deref (w : World) (l : loc) : Values.t := default ∅ (heap w !! l).

Definition load (l : loc) : Go Values.t := λ w, (Returned (deref w l), w).

Definition store (l : loc) (v : Values.t) : Go unit := λ w,
  (Returned tt, mkWorld (<[l := v]> (heap w)) (trace w)).

(** A composite literal [url.Values{...}] allocates a new map. *)
Definition alloc (v : Values.t) : Go (option loc) := λ w,
  let l := fresh (dom (heap w)) in
  (Returned (Some l), mkWorld (<[l := v]> (heap w)) (trace w)).

(** [data.Set(key, value)] on a map reference; writing to the nil map is a
    run-time panic. *)
Definition Values_Set (data : option loc) (key value : string) : Go unit :=
  match data with
  | None => panic (runtimeError "assignment to entry in nil map")
  | Some l => v ← load l; store l (Values.Set_ v key value)
  end.

(** [client.Do(req)]: one exchange, recorded in the trace. *)
Definition Do (client : http.Client) (req : http.Request) : Go http.reply := λ w,
  let r := client (trace w) req in
  (Returned r, mkWorld (heap w) (trace w ++ [(req, r)])).

(** ** Package pushbullet *)

Definition HOST : string := "https://api.pushbullet.com/api".

(** [allDevicesId] is an invalid device identifier used internally to
    indicate that we want to push to all of the user's devices. *)
Definition allDevicesId : Z := 0.

(** A [Client] connects to PushBullet with an API key.  (The field holding
    the [*http.Client] is called [Client] in the source.) *)
Record Client : Type := mkClient {
  Key : string;
  Client_http : http.Client
}.

(** [NewWithClient] creates a new client with your personal API key and
    the given http client.  ([New] does the same with [http.DefaultClient].) *)
Definition NewWithClient (apikey : string) (client : http.Client) : Client :=
  mkClient apikey client.

Record Extras_t : Type := mkExtras {
  Manufacturer : string;
  Model : string;
  AndroidVersion : string;
  SdkVersion : string;
  AppVersion : Z;
  Nickname : string
}.

(** A [Device] represents an Android device as reported by PushBullet. *)
Record Device : Type := mkDevice {
  Id : Z;
  OwnerName : string;
  Extras : Extras_t
}.

Global Instance Extras_eq_dec : EqDecision Extras_t.
Proof. solve_decision. Defined.
Global Instance Device_eq_dec : EqDecision Device.
Proof. solve_decision. Defined.

(** [[]*Device]: a slice of pointers; [None] is a nil pointer (a JSON
    [null] element). *)
Abbreviation devices := (list (option Device)).

Record deviceResponse : Type := mkDeviceResponse {
  Devices_ : devices;
  SharedDevices : devices
}.

Section Package.

(** What [url.Parse] inside [http.NewRequest] says about a URL: [None]
    when it parses. *)
Variable url_Parse_err : string → option error.

(** [json.NewDecoder(body).Decode(&devResp)] on a zero [deviceResponse]. *)
Variable json_Decode : string → deviceResponse + error.

(** [http.NewRequest(method, url, nil)] *)
Definition NewRequest (method url : string) : http.Request + error :=
  match url_Parse_err url with
  | Some err => inr err
  | None => inl (http.mkRequest method url ∅ None)
  end.

Definition buildRequest (c : Client) (endpoint : string) (data : option loc)
  : Go http.Request :=
  match NewRequest "GET" (HOST +:+ endpoint) with
  | inr err => panic err
  | inl r =>
      (* appengine sdk requires us to set the auth header by hand *)
      let u := url.UserPassword (Key c) "" in
      let h := http.Header_Set (http.Header_ r) "Authorization"
                 ("Basic " +:+ base64.EncodeToString (url.Userinfo_String u)) in
      match data with
      | Some l =>
          v ← load l;
          mret (http.mkRequest "POST" (http.URL r)
                  (http.Header_Set h "Content-Type" "application/x-www-form-urlencoded")
                  (Some (Values.Encode v)))
      | None => mret (http.mkRequest (http.Method r) (http.URL r) h (http.Body r))
      end
  end.

(** [Devices] fetches a list of devices from PushBullet.  The deferred
    [resp.Body.Close()] leaves no mark on the modelled state. *)
Definition Devices (c : Client) : Go (devices * option error) :=
  req ← buildRequest c "/devices" None;
  r ← Do (Client_http c) req;
  match r with
  | inr err => mret ([], Some err)
  | inl resp =>
      if decide (http.StatusCode resp ≠ http.StatusOK) then
        mret ([], Some (errorString (http.Status resp)))
      else
        match json_Decode (http.RespBody resp) with
        | inr err => mret ([], Some err)
        | inl devResp =>
            mret ((Devices_ devResp ++ SharedDevices devResp)%list, None)
        end
  end.

(** [Push] pushes the data to a specific device registered with
    PushBullet. *)
Definition Push (c : Client) (deviceId : Z) (data : option loc)
  : Go (option error) :=
  _ ← (if decide (deviceId ≠ allDevicesId)
       then Values_Set data "device_id" (strconv.Itoa deviceId)
       else mret tt);
  req ← buildRequest c "/pushes" data;
  r ← Do (Client_http c) req;
  match r with
  | inr err => mret (Some err)
  | inl resp =>
      if decide (http.StatusCode resp ≠ http.StatusOK) then
        mret (Some (errorString (http.Status resp)))
      else mret None
  end.

(** [PushToAll] pushes the data to all of the user's Pushbullet devices. *)
Definition PushToAll (c : Client) (data : option loc) : Go (option error) :=
  Push c allDevicesId data.

Definition PushNote (c : Client) (deviceId : Z) (title body : string)
  : Go (option error) :=
  data ← alloc (<["type" := ["note"]]> (<["title" := [title]]>
                 (<["body" := [body]]> ∅)));
  Push c deviceId data.

Definition PushNoteToAll (c : Client) (title body : string) : Go (option error) :=
  PushNote c allDevicesId title body.

Definition PushAddress (c : Client) (deviceId : Z) (name address : string)
  : Go (option error) :=
  data ← alloc (<["type" := ["address"]]> (<["name" := [name]]>
                 (<["address" := [address]]> ∅)));
  Push c deviceId data.

Definition PushAddressToAll (c : Client) (name address : string)
  : Go (option error) :=
  PushAddress c allDevicesId name address.

Definition PushList (c : Client) (deviceId : Z) (title : string)
    (items : list string) : Go (option error) :=
  data ← alloc (<["type" := ["list"]]> (<["title" := [title]]>
                 (<["items" := items]> ∅)));
  Push c deviceId data.

Definition PushListToAll (c : Client) (title : string) (item : list string)
  : Go (option error) :=
  PushList c allDevicesId title item.

Definition PushLink (c : Client) (deviceId : Z) (title u : string)
  : Go (option error) :=
  data ← alloc (<["type" := ["link"]]> (<["title" := [title]]>
                 (<["url" := [u]]> ∅)));
  Push c deviceId data.

Definition PushLinkToAll (c : Client) (title u : string) : Go (option error) :=
  PushLink c allDevicesId title u.

(** *** Vocabulary for the statements about the package *)

(** The request that [buildRequest] returns for client [c], an endpoint
    and the form behind [data], if any. *)
Definition built (c : Client) (endpoint : string) (form : option Values.t)
  : http.Request :=
  let auth :=
    "Basic " +:+ base64.EncodeToString
                   (url.escape (Key c) url.encodeUserPassword +:+ ":") in
  match form with
  | None =>
      http.mkRequest "GET" (HOST +:+ endpoint) {[ "Authorization" := [auth] ]} None
  | Some v =>
      http.mkRequest "POST" (HOST +:+ endpoint)
        (<["Content-Type" := ["application/x-www-form-urlencoded"]]>
           {[ "Authorization" := [auth] ]})
        (Some (Values.Encode v))
  end.

(** What [Devices] and [Push] make of the reply once it is there. *)
Definition status_result (r : http.reply) : option error :=
  match r with
  | inr err => Some err
  | inl resp =>
      if decide (http.StatusCode resp ≠ http.StatusOK)
      then Some (errorString (http.Status resp))
      else None
  end.

(** The world after one exchange. *)
Definition exchanged (w : World) (h : gmap loc Values.t) (req : http.Request)
    (r : http.reply) : World :=
  mkWorld h (trace w ++ [(req, r)]).

(** What [Devices] makes of the reply: the pair it returns. *)
Definition devices_result (r : http.reply) : devices * option error :=
  match r with
  | inr err => ([], Some err)
  | inl resp =>
      if decide (http.StatusCode resp ≠ http.StatusOK)
      then ([], Some (errorString (http.Status resp)))
      else match json_Decode (http.RespBody resp) with
           | inr err => ([], Some err)
           | inl devResp =>
               ((Devices_ devResp ++ SharedDevices devResp)%list, None)
           end
  end.

(** The success statuses of HTTP: 2xx. *)
Definition is_2xx (code : Z) : Prop := (200 ≤ code < 300)%Z.

(** Between [w] and [w'] one exchange was made, and it was answered with
    the response [resp]. *)
Definition received (w w' : World) (resp : http.Response) : Prop :=
  ∃ req, trace w' = trace w ++ [(req, inl resp)].

(** The reading of C2 on a call of [Push]: it succeeds exactly on a 2xx
    status, and fails with the status text otherwise. *)
Definition Push_succeeds_iff_2xx (c : Client) (deviceId : Z) (data : option loc)
    (w : World) : Prop :=
  ∀ res w' resp,
    Push c deviceId data w = (Returned res, w') →
    received w w' resp →
    (res = None ↔ is_2xx (http.StatusCode resp))
    ∧ (¬ is_2xx (http.StatusCode resp) →
       res = Some (errorString (http.Status resp))).

(** The text of the body of a request; a request built without body has
    none. *)
Definition body_text (req : http.Request) : string := default "" (http.Body req).

(** The values that the body of a request holds for a key, as
    [url.ParseQuery] reads them. *)
Definition body_values (req : http.Request) (k : string) : list string :=
  Values.at_key (Values.ParseQuery (body_text req)).1 k.

(** The reading of C3 on a call of [Push]: the body sent has no
    [device_id] when [deviceId] is 0 and exactly the decimal text of
    [deviceId] otherwise. *)
Definition device_id_iff_nonzero (c : Client) (deviceId : Z) (data : option loc)
    (w : World) : Prop :=
  ∃ req r w',
    Push c deviceId data w = (Returned (status_result r), w')
    ∧ trace w' = trace w ++ [(req, r)]
    ∧ body_values req "device_id"
      = if decide (deviceId = allDevicesId) then [] else [strconv.Itoa deviceId].

(** How often [d] occurs in a list of devices. *)
Definition occurrences (d : option Device) (l : devices) : nat :=
  length (filter (λ x, x = d) l).

(** A run that, from world [w], sends one POST to [/pushes] whose body
    holds exactly the fields of the form [v], and returns what the status
    of the answer says. *)
Definition sends_form (run : outcome (option error) * World) (w : World)
    (v : Values.t) : Prop :=
  ∃ req r w',
    run = (Returned (status_result r), w')
    ∧ trace w' = trace w ++ [(req, r)]
    ∧ http.Method req = "POST"
    ∧ http.URL req = HOST +:+ "/pushes"
    ∧ ∀ k, body_values req k = Values.at_key v k.

End Package.

(** * Concrete inputs *)

(** ** Fixtures *)

(** A URL check that rejects what [url.Parse] rejects first: ASCII control
    bytes. *)
Definition parse_no_ctl (u : string) : option error :=
  if existsb (λ c, (Byte8.val c <? 32)%N || (Byte8.val c =? 127)%N)
       (list_ascii_of_string u)
  then Some (urlError "net/url: invalid control character in URL")
  else None.

Definition phone : Device :=
  mkDevice 1 "alice" (mkExtras "LG" "Nexus 5" "4.4" "19" 30 "phone").

Definition tablet : Device :=
  mkDevice 2 "bob" (mkExtras "Asus" "Nexus 7" "4.3" "18" 30 "tablet").

(** A decoder that knows three bodies. *)
Definition decode_fixture (body : string) : deviceResponse + error :=
  if decide (body = "owned: phone; shared: phone, tablet") then
    inl (mkDeviceResponse [Some phone] [Some phone; Some tablet])
  else if decide (body = "owned: phone; shared: tablet") then
    inl (mkDeviceResponse [Some phone] [Some tablet])
  else if decide (body = "owned: ; shared: ") then
    inl (mkDeviceResponse [] [])
  else inr (jsonError "invalid character").

(** A server that always answers the same, and a network that is down. *)
Definition answer (status : string) (code : Z) (body : string) : http.Client :=
  λ _ _, inl (http.mkResponse status code body).

Definition refuse : http.Client :=
  λ _ _, inr (urlError "connection refused").

Definition w_empty : World := mkWorld ∅ [].

(** A world in which address 1 holds a note. *)
Definition w_note : World :=
  mkWorld {[ 1%positive := {[ "type" := ["note"]; "title" := ["t"]; "body" := ["b"] ]} ]} [].

(** A world in which address 1 holds a note that already names a device. *)
Definition w_targeted : World :=
  mkWorld {[ 1%positive := {[ "type" := ["note"]; "device_id" := ["7"] ]} ]} [].

Definition c204 : Client := mkClient "k" (answer "204 No Content" 204 "").
Definition c404 : Client := mkClient "k" (answer "404 Not Found" 404 "").
Definition resp404 : http.Response := http.mkResponse "404 Not Found" 404 "".

(** A client whose server answers 200 with a body the decoder knows. *)
Definition c200 : Client :=
  mkClient "k" (answer "200 OK" 200 "owned: phone; shared: phone, tablet").
Definition resp200 : http.Response :=
  http.mkResponse "200 OK" 200 "owned: phone; shared: phone, tablet".

(** A client without network. *)
Definition c_down : Client := mkClient "k" refuse.

(** ** The default client *)

Section Default.

(** [http.DefaultClient], the client of the standard library. *)
Variable DefaultClient : http.Client.

(** [New] creates a new client with your personal API key. *)
Definition New (apikey : string) : Client := mkClient apikey DefaultClient.

End Default.

(** ** Vocabulary for the further properties *)

(** The form that [Push] sends for a payload [v]: [v] itself for
    [allDevicesId], and [v] with [device_id] set for another device. *)
Definition with_target (deviceId : Z) (v : Values.t) : Values.t :=
  if decide (deviceId = allDevicesId) then v
  else Values.Set_ v "device_id" (strconv.Itoa deviceId).

(** How often the byte [c] occurs in [s]. *)
Fixpoint count_byte (c : ascii) (s : string) : nat :=
  match s with
  | EmptyString => 0
  | String c' s' => (if Ascii.eqb c' c then 1 else 0) + count_byte c s'
  end.

(** A server that answers by the number of exchanges made so far: [first]
    to the first request and [later] to the others. *)
Definition answer_then (first later : http.reply) : http.Client :=
  λ tr _, match tr with [] => first | _ => later end.

(** A world with two maps: a note at address 1 and a link at address 2. *)
Definition w_two : World :=
  mkWorld {[ 1%positive := {[ "type" := ["note"]; "title" := ["t"]; "body" := ["b"] ]};
             2%positive := {[ "type" := ["link"]; "url" := ["u"] ]} ]} [].

(** A server that answers 200 with a body that is not JSON. *)
Definition c_html : Client := mkClient "k" (answer "200 OK" 200 "<html>").
Definition resp_html : http.Response := http.mkResponse "200 OK" 200 "<html>".

(** A decoder that takes every body for an empty list. *)
Definition decode_anything (body : string) : deviceResponse + error :=
  inl (mkDeviceResponse [] []).

(** A server that lists the devices once and then wants the key again. *)
Definition c_once : Client :=
  mkClient "k" (answer_then (inl resp200)
                  (inl (http.mkResponse "401 Unauthorized" 401 ""))).

(** Two replies that differ at most in the body of the response. *)
Definition same_status (r1 r2 : http.reply) : Prop :=
  match r1, r2 with
  | inl resp1, inl resp2 =>
      http.Status resp1 = http.Status resp2
      ∧ http.StatusCode resp1 = http.StatusCode resp2
  | inr err1, inr err2 => err1 = err2
  | _, _ => False
  end.

(** ** Vocabulary for the properties of the encodings *)

(** The place of a character in an alphabet, counted from [i]. *)
Fixpoint index_from (i : N) (c : ascii) (alphabet : string) : option N :=
  match alphabet with
  | EmptyString => None
  | String c' rest =>
      if Ascii.eqb c' c then Some i else index_from (N.succ i) c rest
  end.

(** The six bits that a character of the standard alphabet stands for. *)
Definition base64_value (c : ascii) : option N :=
  index_from 0 c base64.encodeStd.

(** Three bytes put together as [EncodeToString] does. *)
Definition base64_group (a b c : N) : N :=
  N.lor (N.lor (N.shiftl a 16) (N.shiftl b 8)) c.

(** The bytes that [url.UserPassword] leaves as they are: letters, digits
    and these marks. *)
Definition userinfo_plain : string :=
  "ABCDEFGHIJKLMNOPQRSTUVWXYZabcdefghijklmnopqrstuvwxyz0123456789-_.~$&+,;=".

(** A number that fits into a byte. *)
Definition no_high_bits (x : N) : Prop :=
  ∀ i, (8 ≤ i)%N → N.testbit x i = false.

Example EncodeToString_rfc :
  base64.EncodeToString "Aladdin:open sesame" = "QWxhZGRpbjpvcGVuIHNlc2FtZQ==".
Proof. reflexivity. Qed.

Example EncodeToString_foobar :
  map base64.EncodeToString ["f"; "fo"; "foo"; "foob"; "fooba"; "foobar"]
  = ["Zg=="; "Zm8="; "Zm9v"; "Zm9vYg=="; "Zm9vYmE="; "Zm9vYmFy"].
Proof. reflexivity. Qed.

Example QueryEscape_ex :
  url.QueryEscape "a b&c=d/é~" = "a+b%26c%3Dd%2F%C3%A9~".
Proof. reflexivity. Qed.

Example QueryUnescape_ex :
  url.QueryUnescape "a+b%26c%3Dd%2f" = inl "a b&c=d/".
Proof. reflexivity. Qed.

Example QueryUnescape_bad :
  url.QueryUnescape "ab%2" = inr (EscapeError "%2").
Proof. reflexivity. Qed.

Example Itoa_ex : map strconv.Itoa [0; 5; 42; -17]%Z = ["0"; "5"; "42"; "-17"].
Proof. reflexivity. Qed.

Example Encode_ex :
  Values.Encode {[ "type" := ["list"]; "title" := ["a b"]; "items" := ["x"; "y&z"] ]}
  = "items=x&items=y%26z&title=a+b&type=list".
Proof. vm_compute. reflexivity. Qed.

Example ParseQuery_ex :
  Values.ParseQuery "items=x&items=y%26z&&title=a+b&type=list&"
  = ({[ "type" := ["list"]; "title" := ["a b"]; "items" := ["x"; "y&z"] ]}, None).
Proof. vm_compute. reflexivity. Qed.

(** * Properties of the library routines *)

(** ** Strings *)

Lemma append_cons (c : ascii) (s1 s2 : string) :
  String c s1 +:+ s2 = String c (s1 +:+ s2).
Proof. reflexivity. Qed.

Lemma append_assoc (s1 s2 s3 : string) : (s1 +:+ s2) +:+ s3 = s1 +:+ (s2 +:+ s3).
Proof. induction s1 as [|c s1 IH]; [done|]. rewrite !append_cons. by rewrite IH. Qed.

Lemma append_nil_r (s : string) : s +:+ "" = s.
Proof. induction s as [|c s IH]; [done|]. rewrite append_cons. by rewrite IH. Qed.

(** ** Escaping and unescaping are inverse *)

Module url_facts.

Import Byte8 url.

(** All 256 bytes, for proofs by exhaustion. *)
Lemma ascii_cases (P : ascii → Prop) :
  (∀ b0 b1 b2 b3 b4 b5 b6 b7 : bool, P (Ascii b0 b1 b2 b3 b4 b5 b6 b7)) →
  ∀ c, P c.
Proof. intros H [b0 b1 b2 b3 b4 b5 b6 b7]. apply H. Qed.

(** Destructs the eight bits of every byte in the goal and computes. *)
Ltac by_bytes :=
  let c := fresh "c" in
  intros c; pattern c; apply ascii_cases; clear c;
  intros [] [] [] [] [] [] [] []; vm_compute; intuition congruence.

Lemma unescaped_not_special :
  ∀ c, shouldEscape c encodeQueryComponent = false → special c = false.
Proof. by_bytes. Qed.

Lemma upperhex_hi_ishex :
  ∀ c, ishex (upperhex_at (N.shiftr (val c) 4)) = true.
Proof. by_bytes. Qed.

Lemma upperhex_lo_ishex :
  ∀ c, ishex (upperhex_at (N.land (val c) 15)) = true.
Proof. by_bytes. Qed.

Lemma ishex_not_special : ∀ c, ishex c = true → special c = false.
Proof. by_bytes. Qed.

Lemma unhex_upperhex :
  ∀ c, of_N (N.lor (N.shiftl (unhex (upperhex_at (N.shiftr (val c) 4))) 4)
               (unhex (upperhex_at (N.land (val c) 15)))) = c.
Proof. by_bytes. Qed.

Lemma special_eqb (c : ascii) :
  special c = false →
  Ascii.eqb c "%" = false ∧ Ascii.eqb c "+" = false ∧ Ascii.eqb c "&" = false
  ∧ Ascii.eqb c "=" = false ∧ Ascii.eqb c ";" = false.
Proof. revert c. by_bytes. Qed.

Lemma space_shouldEscape mode : shouldEscape " " mode = true.
Proof. by destruct mode. Qed.

(** [QueryUnescape] undoes [QueryEscape], on every string. *)
Lemma QueryUnescape_QueryEscape (s : string) :
  QueryUnescape (QueryEscape s) = inl s.
Proof.
  unfold QueryUnescape, QueryEscape.
  induction s as [|c s IH]; [done|]. cbn [escape is_query].
  rewrite andb_true_r.
  destruct (Ascii.eqb_spec c " ") as [->|Hsp].
  { cbn. by rewrite IH. }
  destruct (shouldEscape c encodeQueryComponent) eqn:Hesc.
  - cbn [unescape]. change (Ascii.eqb "%" "%") with true. cbn match.
    rewrite upperhex_hi_ishex, upperhex_lo_ishex. cbn [andb].
    by rewrite IH, unhex_upperhex.
  - apply unescaped_not_special, special_eqb in Hesc as (Hp & Hplus & _).
    cbn [unescape]. rewrite Hp, IH, Hplus. done.
Qed.

Lemma special_sep : ∀ c, special c = false → one_of "&=;" c = false.
Proof. by_bytes. Qed.

Lemma QueryEscape_no_special (s : string) : no_special (QueryEscape s) = true.
Proof.
  unfold QueryEscape.
  induction s as [|c s IH]; [done|]. cbn [escape is_query].
  rewrite andb_true_r.
  destruct (Ascii.eqb_spec c " ") as [->|Hsp]; [by cbn; rewrite IH|].
  destruct (shouldEscape c encodeQueryComponent) eqn:Hesc.
  - cbn [no_special]. rewrite IH.
    rewrite (special_sep _ (ishex_not_special _ (upperhex_hi_ishex c))).
    rewrite (special_sep _ (ishex_not_special _ (upperhex_lo_ishex c))).
    done.
  - cbn [no_special]. rewrite IH.
    by rewrite (special_sep _ (unescaped_not_special _ Hesc)).
Qed.

Lemma escape_userinfo_safe (s : string) :
  userinfo_safe s = true → escape s encodeUserPassword = s.
Proof.
  unfold userinfo_safe.
  induction s as [|c s IH]; [done|]. cbn [list_ascii_of_string forallb escape is_query].
  rewrite andb_false_r. intros [Hc Hs]%andb_true_iff.
  apply negb_true_iff in Hc. rewrite Hc. by rewrite IH.
Qed.

End url_facts.

(** ** Encoding a form and parsing it back *)

Module Values_facts.

Import url Values url_facts.

Lemma Contains_app sep (a b : string) :
  Contains sep (a +:+ b) = Contains sep a || Contains sep b.
Proof.
  induction a as [|c a IH]; [done|].
  rewrite append_cons. cbn [Contains]. rewrite IH. by rewrite orb_assoc.
Qed.

Lemma sep_eqb :
  ∀ c, negb (one_of "&=;" c) = true →
       Ascii.eqb c "&" = false ∧ Ascii.eqb c "=" = false ∧ Ascii.eqb c ";" = false.
Proof. by_bytes. Qed.

Lemma no_special_Contains (s : string) :
  no_special s = true →
  Contains "&" s = false ∧ Contains "=" s = false ∧ Contains ";" s = false.
Proof.
  induction s as [|c s IH]; [done|]. cbn [no_special Contains].
  intros [Hc Hs]%andb_true_iff. destruct (IH Hs) as (-> & -> & ->).
  by destruct (sep_eqb c Hc) as (-> & -> & ->).
Qed.

Lemma Cut_app sep (p rest : string) :
  Contains sep p = false → Cut sep (p +:+ String sep rest) = (p, rest, true).
Proof.
  induction p as [|c p IH]; intros Hp.
  - change ("" +:+ String sep rest) with (String sep rest).
    cbn [Cut]. by rewrite Ascii.eqb_refl.
  - cbn [Contains] in Hp. apply orb_false_iff in Hp as [Hc Hp].
    rewrite append_cons. cbn [Cut]. by rewrite Hc, IH.
Qed.

Lemma pieces_single (p : string) : Contains "&" p = false → pieces p = [p].
Proof.
  induction p as [|c p IH]; intros Hp; [done|].
  cbn [Contains] in Hp. apply orb_false_iff in Hp as [Hc Hp].
  cbn [pieces]. by rewrite Hc, IH.
Qed.

Lemma pieces_app (p rest : string) :
  Contains "&" p = false → pieces (p +:+ String "&" rest) = p :: pieces rest.
Proof.
  induction p as [|c p IH]; intros Hp; [done|].
  cbn [Contains] in Hp. apply orb_false_iff in Hp as [Hc Hp].
  rewrite append_cons. cbn [pieces]. by rewrite Hc, IH.
Qed.

Lemma enc_pair_Contains (p : string * string) :
  Contains "&" (enc_pair p) = false ∧ Contains ";" (enc_pair p) = false.
Proof.
  unfold enc_pair.
  destruct (no_special_Contains _ (QueryEscape_no_special p.1)) as (Hk1 & _ & Hk2).
  destruct (no_special_Contains _ (QueryEscape_no_special p.2)) as (Hx1 & _ & Hx2).
  rewrite !Contains_app, Hk1, Hk2, Hx1, Hx2. done.
Qed.

Lemma enc_pair_Cut (p : string * string) :
  Cut "=" (enc_pair p) = (QueryEscape p.1, QueryEscape p.2, true).
Proof.
  unfold enc_pair.
  destruct (no_special_Contains _ (QueryEscape_no_special p.1)) as (_ & Hk & _).
  by apply Cut_app.
Qed.

Lemma append_eq_nil (a b : string) : a +:+ b = "" → a = "" ∧ b = "".
Proof. destruct a; [done|]. by rewrite append_cons. Qed.

Lemma enc_pair_nonempty (p : string * string) : enc_pair p ≠ "".
Proof. unfold enc_pair. intros (_ & [=])%append_eq_nil. Qed.

(** A piece written by [Encode] is read back as the pair it encodes. *)
Lemma parse_piece_enc_pair (m : t) (err : option error) (p : string * string) :
  parse_piece (m, err) (enc_pair p) = (add_pair m p, err).
Proof.
  unfold parse_piece.
  destruct (enc_pair_Contains p) as [_ ->].
  pose proof (enc_pair_nonempty p) as Hne.
  destruct (enc_pair p) as [|c s] eqn:He; [done|]. rewrite <- He.
  rewrite enc_pair_Cut, !QueryUnescape_QueryEscape. done.
Qed.

Lemma join_cons (p q : string) (ps : list string) :
  join (p :: q :: ps) = p +:+ String "&" (join (q :: ps)).
Proof. reflexivity. Qed.

Lemma parse_join (ps : list (string * string)) (m : t) (err : option error) :
  foldl parse_piece (m, err) (pieces (join (enc_pair <$> ps)))
  = (foldl add_pair m ps, err).
Proof.
  revert m. induction ps as [|p ps IH]; intros m; [done|].
  destruct ps as [|q ps].
  - cbn [fmap list_fmap join]. rewrite pieces_single by apply enc_pair_Contains.
    cbn [foldl]. apply parse_piece_enc_pair.
  - rewrite !fmap_cons, join_cons, pieces_app by apply enc_pair_Contains.
    cbn [foldl]. rewrite parse_piece_enc_pair. rewrite <- fmap_cons. apply IH.
Qed.

(** [ParseQuery] of the joined encoding of a list of pairs collects the
    pairs, in order, without an error. *)
Lemma ParseQuery_join (ps : list (string * string)) :
  ParseQuery (join (enc_pair <$> ps)) = (foldl add_pair ∅ ps, None).
Proof. apply parse_join. Qed.

(** *** [Encode] writes the joined pairs *)

Lemma join_amp_all (p : string * string) (ps : list (string * string)) :
  join (enc_pair <$> p :: ps) = enc_pair p +:+ amp_all ps.
Proof.
  revert p. induction ps as [|q ps IH]; intros p.
  - cbn. by rewrite append_nil_r.
  - rewrite !fmap_cons, join_cons, <- fmap_cons, IH. done.
Qed.

Lemma write_pair_nonempty (ke buf x : string) : write_pair ke buf x ≠ "".
Proof.
  unfold write_pair. intros (_ & (_ & [=])%append_eq_nil)%append_eq_nil.
Qed.

Lemma write_all_cons p (ps : list (string * string)) (buf : string) :
  write_all (p :: ps) buf = write_all ps (write_pair (QueryEscape p.1) buf p.2).
Proof. reflexivity. Qed.

Lemma amp_all_cons p (ps : list (string * string)) :
  amp_all (p :: ps) = String "&" (enc_pair p +:+ amp_all ps).
Proof. reflexivity. Qed.

Lemma write_all_nonempty (ps : list (string * string)) (buf : string) :
  buf ≠ "" → write_all ps buf = buf +:+ amp_all ps.
Proof.
  revert buf. induction ps as [|p ps IH]; intros buf Hbuf.
  - cbn. by rewrite append_nil_r.
  - rewrite write_all_cons, amp_all_cons, IH by apply write_pair_nonempty.
    unfold write_pair, enc_pair. destruct buf as [|c buf]; [done|].
    rewrite !append_assoc. done.
Qed.

Lemma write_all_join (ps : list (string * string)) :
  write_all ps "" = join (enc_pair <$> ps).
Proof.
  destruct ps as [|p ps]; [done|]. rewrite join_amp_all.
  rewrite write_all_cons, write_all_nonempty by apply write_pair_nonempty.
  done.
Qed.

Lemma write_keys (v : t) (keys : list string) (buf : string) :
  foldl (λ buf k, foldl (write_pair (QueryEscape k)) buf (at_key v k)) buf keys
  = write_all (pairs_at v keys) buf.
Proof.
  revert buf. induction keys as [|k keys IH]; intros buf; [done|].
  unfold pairs_at. rewrite bind_cons. fold (pairs_at v keys).
  unfold write_all. rewrite foldl_app, foldl_fmap. cbn [foldl fst snd].
  apply IH.
Qed.

Lemma sorted_keys_empty : sorted_keys ∅ = [].
Proof. unfold sorted_keys. by rewrite map_to_list_empty. Qed.

Lemma Encode_join (v : t) : Encode v = join (enc_pair <$> pairs v).
Proof.
  unfold Encode, pairs. case_decide as Hsz.
  - apply map_size_empty_iff in Hsz as ->. by rewrite sorted_keys_empty.
  - by rewrite write_keys, write_all_join.
Qed.

(** [ParseQuery] accepts everything [Encode] writes. *)
Lemma ParseQuery_Encode (v : t) : ParseQuery (Encode v) = (decoded v, None).
Proof. rewrite Encode_join. apply ParseQuery_join. Qed.

(** *** The form read back is the form written *)

Lemma at_key_add_pair (m : t) (p : string * string) (k : string) :
  at_key (add_pair m p) k
  = if decide (p.1 = k) then (at_key m k ++ [p.2])%list else at_key m k.
Proof.
  unfold add_pair, at_key. case_decide as Hk.
  - subst k. by rewrite lookup_insert_eq.
  - by rewrite lookup_insert_ne.
Qed.

Lemma at_key_foldl_add_pair (ps : list (string * string)) (m : t) (k : string) :
  at_key (foldl add_pair m ps) k = (at_key m k ++ values_of k ps)%list.
Proof.
  revert m. induction ps as [|p ps IH]; intros m.
  - cbn. by rewrite app_nil_r.
  - cbn [foldl]. rewrite IH, at_key_add_pair. unfold values_of.
    rewrite filter_cons. case_decide; [|done].
    by rewrite fmap_cons, <- app_assoc.
Qed.

Lemma values_of_pairs_at (v : t) (keys : list string) (k : string) :
  NoDup keys →
  values_of k (pairs_at v keys) = if decide (k ∈ keys) then at_key v k else [].
Proof.
  unfold values_of. induction keys as [|k' keys IH]; intros Hnd.
  - cbn. case_decide as Hin; [|done]. by apply not_elem_of_nil in Hin.
  - apply NoDup_cons in Hnd as [Hk' Hnd]. unfold pairs_at.
    rewrite bind_cons. fold (pairs_at v keys).
    rewrite filter_app, fmap_app, (IH Hnd).
    destruct (decide (k' = k)) as [->|Hne].
    + destruct (decide (k ∈ keys)) as [?|_]; [done|].
      destruct (decide (k ∈ k :: keys)) as [_|Hn];
        [|by destruct Hn; apply list_elem_of_here].
      rewrite app_nil_r.
      induction (at_key v k) as [|x xs IHx]; [done|].
      rewrite fmap_cons, filter_cons_True by done. rewrite fmap_cons.
      cbn [snd]. by rewrite IHx.
    + assert (Hnil : filter (λ p : string * string, p.1 = k) (pair k' <$> at_key v k') = []).
      { induction (at_key v k') as [|x xs IHx]; [done|].
        rewrite fmap_cons, filter_cons_False by done. apply IHx. }
      rewrite Hnil. cbn [fmap list_fmap app].
      destruct (decide (k ∈ keys)) as [Hin|Hin];
        destruct (decide (k ∈ k' :: keys)) as [Hin'|Hin']; try done.
      * destruct Hin'. by apply list_elem_of_further.
      * apply elem_of_cons in Hin' as [?|?]; by subst.
Qed.

Lemma sorted_keys_NoDup (v : t) : NoDup (sorted_keys v).
Proof.
  unfold sorted_keys. rewrite merge_sort_Permutation.
  apply NoDup_fst_map_to_list.
Qed.

Lemma elem_of_sorted_keys (v : t) (k : string) :
  k ∈ sorted_keys v ↔ is_Some (v !! k).
Proof.
  unfold sorted_keys. rewrite merge_sort_Permutation, list_elem_of_fmap.
  split.
  - intros ([k' vs] & -> & Hin%elem_of_map_to_list). by exists vs.
  - intros [vs Hvs]. exists (k, vs). split; [done|].
    by apply elem_of_map_to_list.
Qed.

(** [sort.Strings] leaves the keys in increasing order. *)
Lemma sorted_keys_Sorted (v : t) : Sorted String.le (sorted_keys v).
Proof. apply Sorted_merge_sort, _. Qed.

(** Under every key the decoded form holds the values of the original,
    in the original order. *)
Lemma at_key_decoded (v : t) (k : string) : at_key (decoded v) k = at_key v k.
Proof.
  unfold decoded, pairs. rewrite at_key_foldl_add_pair.
  rewrite values_of_pairs_at by apply sorted_keys_NoDup.
  unfold at_key at 1. rewrite lookup_empty. cbn [default app].
  case_decide as Hin; [done|].
  rewrite elem_of_sorted_keys in Hin. unfold at_key.
  destruct (v !! k) eqn:Hv; [|done]. destruct Hin. by eexists.
Qed.

Lemma no_empty_foldl_add_pair (ps : list (string * string)) (m : t) :
  no_empty m → no_empty (foldl add_pair m ps).
Proof.
  revert m. induction ps as [|p ps IH]; intros m Hm; [done|].
  cbn [foldl]. apply IH. intros k vs. unfold add_pair.
  destruct (decide (p.1 = k)) as [->|Hne].
  - rewrite lookup_insert_eq. intros [= <-] [_ [=]]%app_eq_nil.
  - rewrite lookup_insert_ne by done. apply Hm.
Qed.

(** The decoded form is the original without the keys that carry no
    value: those leave no trace in the body. *)
Lemma lookup_decoded (v : t) (k : string) :
  decoded v !! k = match at_key v k with [] => None | vs => Some vs end.
Proof.
  pose proof (at_key_decoded v k) as Hat.
  assert (Hne : no_empty (decoded v)).
  { apply no_empty_foldl_add_pair. intros ? ?. by rewrite lookup_empty. }
  unfold at_key at 1 in Hat. destruct (decoded v !! k) as [vs|] eqn:Hd.
  - cbn in Hat. rewrite <- Hat. specialize (Hne _ _ Hd). by destruct vs.
  - cbn in Hat. by rewrite <- Hat.
Qed.

Lemma pairs_at_ext (m1 m2 : t) (keys : list string) :
  (∀ k, at_key m1 k = at_key m2 k) → pairs_at m1 keys = pairs_at m2 keys.
Proof.
  intros Heq. unfold pairs_at. induction keys as [|k keys IH]; [done|].
  by rewrite !bind_cons, IH, Heq.
Qed.

Lemma pairs_at_filter (m : t) (keys : list string) :
  pairs_at m (filter (λ k, at_key m k ≠ []) keys) = pairs_at m keys.
Proof.
  unfold pairs_at. induction keys as [|k keys IH]; [done|].
  rewrite filter_cons. case_decide as Hk.
  - by rewrite !bind_cons, IH.
  - rewrite bind_cons, IH. by rewrite Hk.
Qed.

(** The decoded form carries the same multiset of key/value pairs. *)
Lemma pairs_decoded (v : t) : pairs (decoded v) ≡ₚ pairs v.
Proof.
  unfold pairs.
  rewrite <- (pairs_at_filter v (sorted_keys v)).
  rewrite (pairs_at_ext _ v) by apply at_key_decoded.
  unfold pairs_at. apply bind_Permutation.
  apply NoDup_Permutation.
  - apply sorted_keys_NoDup.
  - apply NoDup_filter, sorted_keys_NoDup.
  - intros k. rewrite list_elem_of_filter, !elem_of_sorted_keys.
    rewrite lookup_decoded. unfold at_key.
    destruct (v !! k) as [[|x xs]|]; cbn.
    + split; [by intros [? [=]] | by intros [[] _]].
    + split; [intros _; split; [done | by eexists] | by eexists].
    + split; [by intros [? [=]] | by intros [[] _]].
Qed.

End Values_facts.

(** * Properties of the package *)

Section Package_facts.

Variable url_Parse_err : string → option error.
Variable json_Decode : string → deviceResponse + error.

Import Values_facts.

Lemma buildRequest_run (c : Client) (endpoint : string) (data : option loc)
    (w : World) :
  url_Parse_err (HOST +:+ endpoint) = None →
  buildRequest url_Parse_err c endpoint data w
  = (Returned (built c endpoint (deref w <$> data)), w).
Proof.
  intros Hurl. unfold buildRequest, NewRequest. rewrite Hurl.
  destruct data as [l|]; reflexivity.
Qed.

Lemma buildRequest_panics (c : Client) (endpoint : string) (data : option loc)
    (w : World) (err : error) :
  url_Parse_err (HOST +:+ endpoint) = Some err →
  buildRequest url_Parse_err c endpoint data w = (Panicked err, w).
Proof. intros Hurl. unfold buildRequest, NewRequest. by rewrite Hurl. Qed.

Lemma deref_insert (h : gmap loc Values.t) (tr : list (http.Request * http.reply))
    (l : loc) (v : Values.t) :
  deref (mkWorld (<[l := v]> h) tr) l = v.
Proof. unfold deref. cbn [heap]. by rewrite lookup_insert_eq. Qed.

(** [Push] to all devices: the payload is sent as it is. *)
Lemma Push_all_run (c : Client) (data : option loc) (w : World) :
  url_Parse_err (HOST +:+ "/pushes") = None →
  Push url_Parse_err c allDevicesId data w
  = let req := built c "/pushes" (deref w <$> data) in
    let r := Client_http c (trace w) req in
    (Returned (status_result r), exchanged w (heap w) req r).
Proof.
  intros Hurl. unfold Push. rewrite decide_False by (by intros []).
  unfold mbind, Go_bind. cbn [mret Go_ret].
  rewrite buildRequest_run by done. unfold Do. cbn.
  by destruct (Client_http c _ _) as [resp|err]; cbn; [case_decide|].
Qed.

(** [Push] to one device: the payload map is updated, then sent. *)
Lemma Push_one_run (c : Client) (deviceId : Z) (l : loc) (w : World) :
  deviceId ≠ allDevicesId →
  url_Parse_err (HOST +:+ "/pushes") = None →
  Push url_Parse_err c deviceId (Some l) w
  = let v := Values.Set_ (deref w l) "device_id" (strconv.Itoa deviceId) in
    let req := built c "/pushes" (Some v) in
    let r := Client_http c (trace w) req in
    (Returned (status_result r), exchanged w (<[l := v]> (heap w)) req r).
Proof.
  intros Hd Hurl. unfold Push. rewrite decide_True by done.
  cbv [mbind Go_bind mret Go_ret Values_Set load store].
  rewrite buildRequest_run by done. cbv [Do fmap option_fmap option_map id].
  cbn [heap trace]. rewrite !deref_insert. unfold exchanged, status_result.
  by destruct (Client_http c _ _) as [resp|err]; cbn; [case_decide|].
Qed.

(** [Push] to one device with the nil map: a run-time panic, and the
    world is as before. *)
Lemma Push_nil_panics (c : Client) (deviceId : Z) (w : World) :
  deviceId ≠ allDevicesId →
  Push url_Parse_err c deviceId None w
  = (Panicked (runtimeError "assignment to entry in nil map"), w).
Proof. intros Hd. unfold Push. by rewrite decide_True by done. Qed.

Lemma Devices_run (c : Client) (w : World) :
  url_Parse_err (HOST +:+ "/devices") = None →
  Devices url_Parse_err json_Decode c w
  = let req := built c "/devices" None in
    let r := Client_http c (trace w) req in
    (Returned (devices_result json_Decode r), exchanged w (heap w) req r).
Proof.
  intros Hurl. unfold Devices, mbind, Go_bind.
  rewrite buildRequest_run by done. unfold Do, devices_result. cbn.
  destruct (Client_http c _ _) as [resp|err]; cbn; [|done].
  case_decide; [done|]. by destruct (json_Decode _).
Qed.

(** A call that returns has made exactly one exchange, and its result is
    read off the reply. *)
Lemma Push_inv (c : Client) (deviceId : Z) (data : option loc) (w w' : World)
    (res : option error) :
  Push url_Parse_err c deviceId data w = (Returned res, w') →
  ∃ req r, trace w' = trace w ++ [(req, r)] ∧ res = status_result r.
Proof.
  destruct (url_Parse_err (HOST +:+ "/pushes")) as [err|] eqn:Hurl.
  - unfold Push, mbind, Go_bind. case_decide as Hd.
    + destruct data as [l|]; [|done]. cbv [Values_Set load store mbind Go_bind].
      by rewrite (buildRequest_panics _ _ _ _ err).
    + cbn [mret Go_ret]. by rewrite (buildRequest_panics _ _ _ _ err).
  - destruct (decide (deviceId = allDevicesId)) as [->|Hd].
    + rewrite Push_all_run by done. intros [= <- <-]. by eexists _, _.
    + destruct data as [l|].
      * rewrite Push_one_run by done. intros [= <- <-]. by eexists _, _.
      * by rewrite Push_nil_panics.
Qed.

Lemma Devices_inv (c : Client) (w w' : World) (res : devices * option error) :
  Devices url_Parse_err json_Decode c w = (Returned res, w') →
  ∃ req r, trace w' = trace w ++ [(req, r)] ∧ res = devices_result json_Decode r.
Proof.
  destruct (url_Parse_err (HOST +:+ "/devices")) as [err|] eqn:Hurl.
  - unfold Devices, mbind, Go_bind.
    by rewrite (buildRequest_panics _ _ _ _ err).
  - rewrite Devices_run by done. intros [= <- <-]. by eexists _, _.
Qed.

(** *** Requests *)

Lemma built_Authorization (c : Client) (endpoint : string) (form : option Values.t) :
  http.Header_ (built c endpoint form) !! "Authorization"
  = Some ["Basic " +:+ base64.EncodeToString
                         (url.escape (Key c) url.encodeUserPassword +:+ ":")].
Proof. by destruct form. Qed.

(** Whatever the endpoint and the payload, the [Authorization] header is
    [Basic] followed by the base64 text of the escaped key and a colon. *)
Lemma buildRequest_Authorization (c : Client) (endpoint : string)
    (data : option loc) (w : World) :
  url_Parse_err (HOST +:+ endpoint) = None →
  ∃ r, buildRequest url_Parse_err c endpoint data w = (Returned r, w)
       ∧ http.Header_ r !! "Authorization"
         = Some ["Basic " +:+ base64.EncodeToString
                                (url.escape (Key c) url.encodeUserPassword +:+ ":")].
Proof.
  intros Hurl. eexists. split; [by apply buildRequest_run|].
  apply built_Authorization.
Qed.

(** For a key that needs no escaping, this is the header of HTTP Basic
    authentication with the key as user name and no password. *)
Lemma buildRequest_Authorization_plain (c : Client) (endpoint : string)
    (data : option loc) (w : World) :
  url.userinfo_safe (Key c) = true →
  url_Parse_err (HOST +:+ endpoint) = None →
  ∃ r, buildRequest url_Parse_err c endpoint data w = (Returned r, w)
       ∧ http.Header_ r !! "Authorization"
         = Some ["Basic " +:+ base64.EncodeToString (Key c +:+ ":")].
Proof.
  intros Hkey Hurl.
  destruct (buildRequest_Authorization c endpoint data w Hurl) as (r & Hr & Hh).
  exists r. split; [done|]. by rewrite (url_facts.escape_userinfo_safe _ Hkey) in Hh.
Qed.

(** C1, at the key [a/b]: whenever [buildRequest] returns, for any
    endpoint and payload, the [Authorization] header carries the base64
    text of [a%2Fb:], which is not the base64 text of [a/b:]. *)
Theorem buildRequest_Authorization_escapes_key (client : http.Client)
    (endpoint : string) (data : option loc) (w : World) :
  match buildRequest url_Parse_err (mkClient "a/b" client) endpoint data w with
  | (Returned r, _) =>
      http.Header_ r !! "Authorization" = Some ["Basic YSUyRmI6"]
      ∧ http.Header_ r !! "Authorization"
        ≠ Some ["Basic " +:+ base64.EncodeToString ("a/b" +:+ ":")]
  | (Panicked _, _) => url_Parse_err (HOST +:+ endpoint) ≠ None
  end.
Proof.
  destruct (url_Parse_err (HOST +:+ endpoint)) as [err|] eqn:Hurl.
  - by rewrite (buildRequest_panics _ _ _ _ err).
  - rewrite buildRequest_run by done. rewrite built_Authorization.
    split; [reflexivity|]. vm_compute. discriminate.
Qed.

(** *** Status codes *)

Lemma received_reply (w w' : World) (resp : http.Response) (req : http.Request)
    (r : http.reply) :
  received w w' resp → trace w' = trace w ++ [(req, r)] → r = inl resp.
Proof.
  intros [req' Hrecv] Htr. rewrite Htr in Hrecv.
  by apply app_inv_head in Hrecv as [= _ ->].
Qed.

(** C2, as the code has it: when a response is received, [Push] succeeds
    exactly when the status code is 200 and [Devices] exactly when the
    status code is 200 and the body decodes; on every other status code
    both return an error made of the status text. *)
Theorem status_200_decides (c : Client) (deviceId : Z) (data : option loc)
    (w : World) :
  (∀ res w' resp,
     Push url_Parse_err c deviceId data w = (Returned res, w') →
     received w w' resp →
     (res = None ↔ http.StatusCode resp = http.StatusOK)
     ∧ (http.StatusCode resp ≠ http.StatusOK →
        res = Some (errorString (http.Status resp))))
  ∧ (∀ ds err w' resp,
       Devices url_Parse_err json_Decode c w = (Returned (ds, err), w') →
       received w w' resp →
       (err = None ↔ http.StatusCode resp = http.StatusOK
                     ∧ ∃ devResp, json_Decode (http.RespBody resp) = inl devResp)
       ∧ (http.StatusCode resp ≠ http.StatusOK →
          err = Some (errorString (http.Status resp)))).
Proof.
  split.
  - intros res w' resp (req & r & Htr & ->)%Push_inv Hrecv.
    rewrite (received_reply _ _ _ _ _ Hrecv Htr). cbn [status_result].
    case_decide as Hcode; split; done.
  - intros ds err w' resp (req & r & Htr & Hres)%Devices_inv Hrecv.
    rewrite (received_reply _ _ _ _ _ Hrecv Htr) in Hres.
    cbn [devices_result] in Hres. case_decide as Hcode.
    + injection Hres as -> ->. split; [|done]. split; [done|]. by intros [? _].
    + split; [|done].
      destruct (json_Decode _) as [dr|e]; injection Hres as -> ->.
      * split; [|done]. intros _. split; [done|]. by exists dr.
      * split; [done|]. by intros [_ [? [=]]].
Qed.

(** *** Request bodies *)

Lemma body_values_built (c : Client) (endpoint : string) (v : Values.t) (k : string) :
  body_values (built c endpoint (Some v)) k = Values.at_key v k.
Proof.
  change (body_values (built c endpoint (Some v)) k)
    with (Values.at_key (Values.ParseQuery (Values.Encode v)).1 k).
  rewrite ParseQuery_Encode. apply at_key_decoded.
Qed.

Lemma body_values_no_body (c : Client) (endpoint k : string) :
  body_values (built c endpoint None) k = [].
Proof. reflexivity. Qed.

(** What [Push] sends for a payload that is a map: a POST whose body
    holds, for [deviceId] 0, the fields of the payload as they are and,
    for another [deviceId], the single [device_id] value that is its
    decimal text, next to the other fields of the payload. *)
Theorem Push_device_id (c : Client) (deviceId : Z) (l : loc) (w : World) :
  url_Parse_err (HOST +:+ "/pushes") = None →
  ∃ req r w',
    Push url_Parse_err c deviceId (Some l) w = (Returned (status_result r), w')
    ∧ trace w' = trace w ++ [(req, r)]
    ∧ http.Method req = "POST"
    ∧ ∀ k, body_values req k
           = if decide (deviceId ≠ allDevicesId ∧ k = "device_id")
             then [strconv.Itoa deviceId]
             else Values.at_key (deref w l) k.
Proof.
  intros Hurl. destruct (decide (deviceId = allDevicesId)) as [->|Hd].
  - rewrite Push_all_run by done. eexists _, _, _. split; [done|].
    split; [done|]. split; [done|]. intros k.
    cbn [fmap option_fmap option_map]. rewrite body_values_built.
    by rewrite decide_False by (by intros [[] _]).
  - rewrite Push_one_run by done. eexists _, _, _. split; [done|].
    split; [done|]. split; [done|]. intros k. rewrite body_values_built.
    unfold Values.Set_, Values.at_key at 1. case_decide as Hk.
    + destruct Hk as [_ ->]. by rewrite lookup_insert_eq.
    + rewrite lookup_insert_ne; [done|]. intros <-. by apply Hk.
Qed.

(** On a payload that is a map and names no device, [Push] does what is
    asked of it: the body has no [device_id] for [deviceId] 0 and the
    decimal text of [deviceId], once, otherwise. *)
Lemma Push_device_id_of_untargeted_payload (c : Client) (deviceId : Z) (l : loc)
    (w : World) :
  url_Parse_err (HOST +:+ "/pushes") = None →
  Values.at_key (deref w l) "device_id" = [] →
  device_id_iff_nonzero url_Parse_err c deviceId (Some l) w.
Proof.
  intros Hurl Hnone.
  destruct (Push_device_id c deviceId l w Hurl)
    as (req & r & w' & Hrun & Htr & _ & Hvals).
  exists req, r, w'. split; [done|]. split; [done|]. rewrite Hvals.
  destruct (decide (deviceId = allDevicesId)) as [Hd|Hd].
  - rewrite decide_False by (by intros [? _]). done.
  - rewrite decide_True by done. done.
Qed.

(** *** Devices *)

(** C4: when the exchange for [/devices] is answered with status 200 and
    a body that decodes, [Devices] returns the owned devices followed by
    the shared ones, each in the order decoded; nothing is removed, so a
    device counts once for each list it is in, and two empty lists give
    the empty list. *)
Theorem Devices_concatenates (c : Client) (w : World) (req : http.Request)
    (resp : http.Response) (devResp : deviceResponse) :
  buildRequest url_Parse_err c "/devices" None w = (Returned req, w) →
  Client_http c (trace w) req = inl resp →
  http.StatusCode resp = http.StatusOK →
  json_Decode (http.RespBody resp) = inl devResp →
  ∃ ds w',
    Devices url_Parse_err json_Decode c w = (Returned (ds, None), w')
    ∧ trace w' = trace w ++ [(req, inl resp)]
    ∧ ds = Devices_ devResp ++ SharedDevices devResp
    ∧ (∀ d, occurrences d ds
            = occurrences d (Devices_ devResp) + occurrences d (SharedDevices devResp))
    ∧ (Devices_ devResp = [] → SharedDevices devResp = [] → ds = []).
Proof.
  intros Hreq Hdo Hcode Hdec.
  unfold Devices, mbind, Go_bind. rewrite Hreq. unfold Do. rewrite Hdo.
  rewrite decide_False by (by intros []). rewrite Hdec.
  eexists _, _. split; [reflexivity|]. split; [done|]. split; [done|]. split.
  - intros d. unfold occurrences. by rewrite filter_app, length_app.
  - by intros -> ->.
Qed.

(** C8: an error from [Devices] comes with the nil slice, whichever of
    the three failures it reports. *)
Theorem Devices_error_without_devices (c : Client) (w w' : World) (ds : devices)
    (err : option error) :
  Devices url_Parse_err json_Decode c w = (Returned (ds, err), w') →
  err ≠ None →
  ds = [].
Proof.
  intros (req & r & _ & Hres)%Devices_inv Herr. unfold devices_result in Hres.
  destruct r as [resp|e]; [|by injection Hres].
  case_decide; [by injection Hres|].
  destruct (json_Decode _); injection Hres as -> ->; done.
Qed.

(** *** Method and body *)

(** C5: provided the URL of the endpoint parses, [buildRequest] without
    form data returns a GET request with no body; with form data it
    returns a POST request of content type
    [application/x-www-form-urlencoded] whose body [url.ParseQuery] reads,
    without error, as a form with the same multiset of key/value pairs,
    the values of every key in their order. *)
Theorem buildRequest_method_and_body (c : Client) (endpoint : string) (w : World) :
  url_Parse_err (HOST +:+ endpoint) = None →
  (∃ r, buildRequest url_Parse_err c endpoint None w = (Returned r, w)
        ∧ http.Method r = "GET" ∧ http.Body r = None)
  ∧ (∀ l, ∃ r body m,
        buildRequest url_Parse_err c endpoint (Some l) w = (Returned r, w)
        ∧ http.Method r = "POST"
        ∧ http.Header_ r !! "Content-Type" = Some ["application/x-www-form-urlencoded"]
        ∧ http.Body r = Some body
        ∧ Values.ParseQuery body = (m, None)
        ∧ Values.pairs m ≡ₚ Values.pairs (deref w l)
        ∧ ∀ k, Values.at_key m k = Values.at_key (deref w l) k).
Proof.
  intros Hurl. split.
  - eexists. split; [by apply buildRequest_run|]. done.
  - intros l. eexists _, _, _. split; [by apply buildRequest_run|].
    cbn [fmap option_fmap option_map built http.Method http.Header_ http.Body].
    split; [done|]. split; [done|]. split; [done|].
    split; [apply ParseQuery_Encode|]. split.
    + apply pairs_decoded.
    + apply at_key_decoded.
Qed.

(** *** The shapes of a push *)

(** C6: provided the URL parses, [PushList] sends one POST to [/pushes]
    whose body holds the items under [items], one entry for each and in
    their order, [list] under [type], the title under [title], the decimal
    text of a nonzero [deviceId] under [device_id], and nothing else. *)
Theorem PushList_form (c : Client) (deviceId : Z) (title : string)
    (items : list string) (w : World) :
  url_Parse_err (HOST +:+ "/pushes") = None →
  ∃ req r w',
    PushList url_Parse_err c deviceId title items w
    = (Returned (status_result r), w')
    ∧ trace w' = trace w ++ [(req, r)]
    ∧ http.Method req = "POST"
    ∧ http.URL req = HOST +:+ "/pushes"
    ∧ body_values req "items" = items
    ∧ body_values req "type" = ["list"]
    ∧ body_values req "title" = [title]
    ∧ body_values req "device_id"
      = (if decide (deviceId = allDevicesId) then [] else [strconv.Itoa deviceId])
    ∧ ∀ k, k ∉ ["items"; "type"; "title"; "device_id"] → body_values req k = [].
Proof.
  clear json_Decode.
  intros Hurl. unfold PushList, mbind, Go_bind, alloc.
  destruct (decide (deviceId = allDevicesId)) as [->|Hd].
  - rewrite Push_all_run by done. eexists _, _, _. split; [done|].
    cbn [fmap option_fmap option_map trace exchanged].
    rewrite deref_insert. split; [done|]. split; [done|]. split; [done|].
    rewrite !body_values_built. unfold Values.at_key.
    repeat split; try by simplify_map_eq.
    intros k Hk. rewrite body_values_built. unfold Values.at_key.
    rewrite !lookup_insert_ne, lookup_empty; [done|..]; intros <-; set_solver.
  - rewrite Push_one_run by done. eexists _, _, _. split; [done|].
    cbn [trace exchanged]. rewrite deref_insert.
    split; [done|]. split; [done|]. split; [done|].
    rewrite !body_values_built. unfold Values.at_key, Values.Set_.
    repeat split; try by simplify_map_eq.
    intros k Hk. rewrite body_values_built. unfold Values.at_key.
    rewrite !lookup_insert_ne, lookup_empty; [done|..]; intros <-; set_solver.
Qed.

(** A new map pushed to all devices is sent as it is. *)
Lemma alloc_Push_all (c : Client) (v : Values.t) (w : World) :
  url_Parse_err (HOST +:+ "/pushes") = None →
  sends_form ((data ← alloc v; Push url_Parse_err c allDevicesId data) w) w v.
Proof.
  intros Hurl. unfold mbind, Go_bind, alloc.
  rewrite Push_all_run by done. eexists _, _, _. split; [done|].
  cbn [fmap option_fmap option_map trace exchanged]. rewrite deref_insert.
  split; [done|]. split; [done|]. split; [done|].
  intros k. apply body_values_built.
Qed.

(** C7: every [...ToAll] entry point is the targeted one called with
    device id 0, so that in every world the two lead to the same outcome,
    the same request and the same state; and, provided the URL parses, that
    request is a POST to [/pushes] whose body holds the fields of the shape
    and no [device_id]. *)
Theorem ToAll_is_targeted_with_sentinel (c : Client) :
  ((∀ data, PushToAll url_Parse_err c data = Push url_Parse_err c 0 data)
   ∧ (∀ title body,
        PushNoteToAll url_Parse_err c title body
        = PushNote url_Parse_err c 0 title body)
   ∧ (∀ name address,
        PushAddressToAll url_Parse_err c name address
        = PushAddress url_Parse_err c 0 name address)
   ∧ (∀ title items,
        PushListToAll url_Parse_err c title items
        = PushList url_Parse_err c 0 title items)
   ∧ (∀ title u,
        PushLinkToAll url_Parse_err c title u
        = PushLink url_Parse_err c 0 title u))
  ∧ (url_Parse_err (HOST +:+ "/pushes") = None →
     ∀ w,
       (∀ title body,
          sends_form (PushNoteToAll url_Parse_err c title body w) w
            (<["type" := ["note"]]> (<["title" := [title]]>
               (<["body" := [body]]> ∅))))
       ∧ (∀ name address,
            sends_form (PushAddressToAll url_Parse_err c name address w) w
              (<["type" := ["address"]]> (<["name" := [name]]>
                 (<["address" := [address]]> ∅))))
       ∧ (∀ title items,
            sends_form (PushListToAll url_Parse_err c title items w) w
              (<["type" := ["list"]]> (<["title" := [title]]>
                 (<["items" := items]> ∅))))
       ∧ (∀ title u,
            sends_form (PushLinkToAll url_Parse_err c title u w) w
              (<["type" := ["link"]]> (<["title" := [title]]>
                 (<["url" := [u]]> ∅))))).
Proof.
  split; [repeat split|].
  intros Hurl w. repeat split; intros; by apply alloc_Push_all.
Qed.

(** *** The payload map is shared with the caller *)

(** C9: [Push] with a nonzero [deviceId] writes [device_id] into the map
    the caller passed; when it has returned, the caller's map holds the
    new entry, and a later push of the same map to all devices still sends
    that [device_id]. *)
Theorem Push_mutates_payload (c : Client) (deviceId : Z) (l : loc) (w : World) :
  deviceId ≠ allDevicesId →
  url_Parse_err (HOST +:+ "/pushes") = None →
  ∃ res w',
    Push url_Parse_err c deviceId (Some l) w = (Returned res, w')
    ∧ heap w' !! l
      = Some (<["device_id" := [strconv.Itoa deviceId]]> (deref w l))
    ∧ ∀ c2, ∃ req r w'',
        Push url_Parse_err c2 allDevicesId (Some l) w'
        = (Returned (status_result r), w'')
        ∧ trace w'' = trace w' ++ [(req, r)]
        ∧ body_values req "device_id" = [strconv.Itoa deviceId].
Proof.
  intros Hd Hurl. rewrite Push_one_run by done. eexists _, _.
  split; [done|]. cbn [heap exchanged]. split; [by rewrite lookup_insert_eq|].
  intros c2. rewrite Push_all_run by done. eexists _, _, _.
  split; [done|]. split; [done|].
  cbn [fmap option_fmap option_map]. unfold exchanged.
  rewrite body_values_built, deref_insert.
  unfold Values.at_key, Values.Set_. by rewrite lookup_insert_eq.
Qed.

(** C10: with the nil map as payload, [Push] to a nonzero [deviceId]
    panics on the assignment and leaves the world as it was, no request
    sent; [Push] to all devices sends, provided the URL parses, a GET
    request without body to [/pushes]. *)
Theorem Push_nil_payload (c : Client) (w : World) :
  (∀ deviceId, deviceId ≠ allDevicesId →
     Push url_Parse_err c deviceId None w
     = (Panicked (runtimeError "assignment to entry in nil map"), w))
  ∧ (url_Parse_err (HOST +:+ "/pushes") = None →
     ∃ req r w',
       Push url_Parse_err c allDevicesId None w = (Returned (status_result r), w')
       ∧ trace w' = trace w ++ [(req, r)]
       ∧ heap w' = heap w
       ∧ http.Method req = "GET"
       ∧ http.URL req = HOST +:+ "/pushes"
       ∧ http.Body req = None).
Proof.
  split.
  - intros deviceId Hd. by apply Push_nil_panics.
  - intros Hurl. rewrite Push_all_run by done. by eexists _, _, _.
Qed.

End Package_facts.

(** * Concrete runs *)

(** ** The key is escaped before it is encoded *)

Example Authorization_of_plain_key :
  buildRequest parse_no_ctl (mkClient "o.Key-12_x" refuse) "/devices" None w_empty
  = (Returned (http.mkRequest "GET" "https://api.pushbullet.com/api/devices"
                 {[ "Authorization" := ["Basic " +:+ base64.EncodeToString "o.Key-12_x:"] ]}
                 None),
     w_empty).
Proof. vm_compute. reflexivity. Qed.

Example Authorization_of_key_with_slash :
  buildRequest parse_no_ctl (mkClient "a/b" refuse) "/devices" None w_empty
  = (Returned (http.mkRequest "GET" "https://api.pushbullet.com/api/devices"
                 {[ "Authorization" := ["Basic " +:+ base64.EncodeToString "a%2Fb:"] ]}
                 None),
     w_empty).
Proof. vm_compute. reflexivity. Qed.

(** ** Status 204 *)

(** C2 fails on the code: 204 is a 2xx status, a response with it is
    received, and [Push] returns an error made of its status text. *)
Lemma Push_204_is_an_error :
  is_2xx 204
  ∧ (Push parse_no_ctl c204 0 (Some 1%positive) w_note).1
    = Returned (Some (errorString "204 No Content"))
  ∧ ¬ Push_succeeds_iff_2xx parse_no_ctl c204 0 (Some 1%positive) w_note.
Proof.
  assert (H2xx : is_2xx 204) by (unfold is_2xx; lia).
  split; [exact H2xx|]. split; [vm_compute; reflexivity|].
  intros Hclaim.
  edestruct Hclaim as [[_ Hsucc] _].
  - rewrite Push_all_run by (vm_compute; reflexivity). reflexivity.
  - eexists. reflexivity.
  - specialize (Hsucc H2xx). vm_compute in Hsucc. discriminate.
Qed.

(** The hypotheses of C2 at a 404 answer, for [Push] and for [Devices]. *)
Lemma status_200_decides_witness :
  (Push parse_no_ctl c404 5 (Some 1%positive) w_note
   = (Returned (Some (errorString "404 Not Found")),
      (Push parse_no_ctl c404 5 (Some 1%positive) w_note).2)
   ∧ received w_note (Push parse_no_ctl c404 5 (Some 1%positive) w_note).2 resp404
   ∧ Devices parse_no_ctl decode_fixture c404 w_note
     = (Returned ([], Some (errorString "404 Not Found")),
        (Devices parse_no_ctl decode_fixture c404 w_note).2)
   ∧ received w_note (Devices parse_no_ctl decode_fixture c404 w_note).2 resp404)
  ∧ ((Some (errorString "404 Not Found") = None
      ↔ http.StatusCode resp404 = http.StatusOK)
     ∧ (http.StatusCode resp404 ≠ http.StatusOK →
        Some (errorString "404 Not Found") = Some (errorString (http.Status resp404))))
  ∧ ((Some (errorString "404 Not Found") = None
      ↔ http.StatusCode resp404 = http.StatusOK
        ∧ ∃ devResp, decode_fixture (http.RespBody resp404) = inl devResp)
     ∧ (http.StatusCode resp404 ≠ http.StatusOK →
        Some (errorString "404 Not Found") = Some (errorString (http.Status resp404)))).
Proof.
  assert (Hpushed :
    Push parse_no_ctl c404 5 (Some 1%positive) w_note
    = (Returned (Some (errorString "404 Not Found")),
       (Push parse_no_ctl c404 5 (Some 1%positive) w_note).2))
    by (vm_compute; reflexivity).
  assert (Hprecv :
    received w_note (Push parse_no_ctl c404 5 (Some 1%positive) w_note).2 resp404).
  { exists (built c404 "/pushes"
              (Some (Values.Set_ (deref w_note 1%positive) "device_id" "5"))).
    vm_compute. reflexivity. }
  assert (Hlisted :
    Devices parse_no_ctl decode_fixture c404 w_note
    = (Returned ([], Some (errorString "404 Not Found")),
       (Devices parse_no_ctl decode_fixture c404 w_note).2))
    by (vm_compute; reflexivity).
  assert (Hlrecv :
    received w_note (Devices parse_no_ctl decode_fixture c404 w_note).2 resp404).
  { exists (built c404 "/devices" None). vm_compute. reflexivity. }
  split; [exact (conj Hpushed (conj Hprecv (conj Hlisted Hlrecv)))|].
  split.
  - exact (proj1 (status_200_decides parse_no_ctl decode_fixture c404 5
                    (Some 1%positive) w_note) _ _ resp404 Hpushed Hprecv).
  - exact (proj2 (status_200_decides parse_no_ctl decode_fixture c404 5
                    (Some 1%positive) w_note) _ _ _ resp404 Hlisted Hlrecv).
Defined.

(** ** A payload that already names a device *)

Example Push_to_all_sends_device_id :
  (Push parse_no_ctl c200 0 (Some 1%positive) w_targeted).2
  = mkWorld (heap w_targeted)
      [(http.mkRequest "POST" "https://api.pushbullet.com/api/pushes"
          {[ "Authorization" := ["Basic azo="];
             "Content-Type" := ["application/x-www-form-urlencoded"] ]}
          (Some "device_id=7&type=note"),
        inl resp200)].
Proof. vm_compute. reflexivity. Qed.

(** C3, at a payload that already names device 7 (as an earlier push to
    that device leaves it): pushed to all devices, with [deviceId] 0, the
    payload is sent with [device_id=7], so that the body of the broadcast
    names a device and the claim fails; pushed to device 42, the same
    payload is sent with [device_id=42] alone, the stale target
    overwritten. *)
Lemma Push_to_all_keeps_device_id :
  http.Body <$> (trace (Push parse_no_ctl c200 0 (Some 1%positive) w_targeted).2).*1
  = [Some "device_id=7&type=note"]
  ∧ ¬ device_id_iff_nonzero parse_no_ctl c200 0 (Some 1%positive) w_targeted
  ∧ http.Body <$> (trace (Push parse_no_ctl c200 42 (Some 1%positive) w_targeted).2).*1
    = [Some "device_id=42&type=note"].
Proof.
  split; [vm_compute; reflexivity|].
  split; [|vm_compute; reflexivity].
  intros (req & r & w' & Hrun & Htr & Hvals).
  rewrite Push_all_run in Hrun by (vm_compute; reflexivity).
  injection Hrun as _ <-. cbn [exchanged trace] in Htr.
  apply app_inv_head in Htr as [= <- _].
  vm_compute in Hvals. discriminate.
Qed.

(** [Push_device_id] at device 42 and the note of [w_note]. *)
Lemma Push_device_id_witness :
  parse_no_ctl (HOST +:+ "/pushes") = None
  ∧ ∃ req r w',
      Push parse_no_ctl c200 42 (Some 1%positive) w_note
      = (Returned (status_result r), w')
      ∧ trace w' = trace w_note ++ [(req, r)]
      ∧ http.Method req = "POST"
      ∧ ∀ k, body_values req k
             = if decide (42%Z ≠ allDevicesId ∧ k = "device_id")
               then [strconv.Itoa 42]
               else Values.at_key (deref w_note 1%positive) k.
Proof.
  assert (Hurl : parse_no_ctl (HOST +:+ "/pushes") = None)
    by (vm_compute; reflexivity).
  exact (conj Hurl (Push_device_id parse_no_ctl c200 42 1%positive w_note Hurl)).
Defined.

Example Push_42_body :
  trace (Push parse_no_ctl c200 42 (Some 1%positive) w_note).2
  = [(http.mkRequest "POST" "https://api.pushbullet.com/api/pushes"
        {[ "Authorization" := ["Basic azo="];
           "Content-Type" := ["application/x-www-form-urlencoded"] ]}
        (Some "body=b&device_id=42&title=t&type=note"),
      inl resp200)].
Proof. vm_compute. reflexivity. Qed.

Example Push_0_body :
  trace (Push parse_no_ctl c200 0 (Some 1%positive) w_note).2
  = [(http.mkRequest "POST" "https://api.pushbullet.com/api/pushes"
        {[ "Authorization" := ["Basic azo="];
           "Content-Type" := ["application/x-www-form-urlencoded"] ]}
        (Some "body=b&title=t&type=note"),
      inl resp200)].
Proof. vm_compute. reflexivity. Qed.

(** ** Listing devices *)

Example Devices_owned_then_shared :
  (Devices parse_no_ctl decode_fixture
     (mkClient "k" (answer "200 OK" 200 "owned: phone; shared: tablet")) w_empty).1
  = Returned ([Some phone; Some tablet], None).
Proof. vm_compute. reflexivity. Qed.

Example Devices_keeps_duplicates :
  (Devices parse_no_ctl decode_fixture c200 w_empty).1
  = Returned ([Some phone; Some phone; Some tablet], None).
Proof. vm_compute. reflexivity. Qed.

Example Devices_none :
  (Devices parse_no_ctl decode_fixture
     (mkClient "k" (answer "200 OK" 200 "owned: ; shared: ")) w_empty).1
  = Returned ([], None).
Proof. vm_compute. reflexivity. Qed.

Example Devices_401 :
  (Devices parse_no_ctl decode_fixture
     (mkClient "k" (answer "401 Unauthorized" 401 "")) w_empty).1
  = Returned ([], Some (errorString "401 Unauthorized")).
Proof. vm_compute. reflexivity. Qed.

Example Devices_not_json :
  (Devices parse_no_ctl decode_fixture
     (mkClient "k" (answer "200 OK" 200 "<html>")) w_empty).1
  = Returned ([], Some (jsonError "invalid character")).
Proof. vm_compute. reflexivity. Qed.

Example Devices_connection_refused :
  (Devices parse_no_ctl decode_fixture c_down w_empty).1
  = Returned ([], Some (urlError "connection refused")).
Proof. vm_compute. reflexivity. Qed.

(** The hypotheses of C4 at a 200 answer listing the phone as owned and
    the phone and the tablet as shared. *)
Lemma Devices_concatenates_witness :
  (buildRequest parse_no_ctl c200 "/devices" None w_empty
   = (Returned (built c200 "/devices" None), w_empty)
   ∧ Client_http c200 (trace w_empty) (built c200 "/devices" None) = inl resp200
   ∧ http.StatusCode resp200 = http.StatusOK
   ∧ decode_fixture (http.RespBody resp200)
     = inl (mkDeviceResponse [Some phone] [Some phone; Some tablet]))
  ∧ ∃ ds w',
      Devices parse_no_ctl decode_fixture c200 w_empty = (Returned (ds, None), w')
      ∧ trace w' = trace w_empty ++ [(built c200 "/devices" None, inl resp200)]
      ∧ ds = [Some phone] ++ [Some phone; Some tablet]
      ∧ (∀ d, occurrences d ds
              = occurrences d [Some phone] + occurrences d [Some phone; Some tablet])
      ∧ ([Some phone] = [] → [Some phone; Some tablet] = [] → ds = []).
Proof.
  assert (Hreq : buildRequest parse_no_ctl c200 "/devices" None w_empty
                 = (Returned (built c200 "/devices" None), w_empty))
    by (vm_compute; reflexivity).
  assert (Hdo : Client_http c200 (trace w_empty) (built c200 "/devices" None)
                = inl resp200) by reflexivity.
  assert (Hcode : http.StatusCode resp200 = http.StatusOK) by reflexivity.
  assert (Hdec : decode_fixture (http.RespBody resp200)
                 = inl (mkDeviceResponse [Some phone] [Some phone; Some tablet]))
    by (vm_compute; reflexivity).
  split; [exact (conj Hreq (conj Hdo (conj Hcode Hdec)))|].
  exact (Devices_concatenates parse_no_ctl decode_fixture c200 w_empty
           (built c200 "/devices" None) resp200
           (mkDeviceResponse [Some phone] [Some phone; Some tablet])
           Hreq Hdo Hcode Hdec).
Defined.

(** The hypotheses of C8 when the connection is refused. *)
Lemma Devices_error_without_devices_witness :
  (Devices parse_no_ctl decode_fixture c_down w_empty
   = (Returned ([], Some (urlError "connection refused")),
      (Devices parse_no_ctl decode_fixture c_down w_empty).2)
   ∧ Some (urlError "connection refused") ≠ None)
  ∧ @nil (option Device) = [].
Proof.
  assert (Hrun : Devices parse_no_ctl decode_fixture c_down w_empty
                 = (Returned ([], Some (urlError "connection refused")),
                    (Devices parse_no_ctl decode_fixture c_down w_empty).2))
    by (vm_compute; reflexivity).
  assert (Herr : Some (urlError "connection refused") ≠ None) by discriminate.
  split; [exact (conj Hrun Herr)|].
  exact (Devices_error_without_devices parse_no_ctl decode_fixture c_down w_empty _
           [] (Some (urlError "connection refused")) Hrun Herr).
Defined.

(** ** Building requests *)

(** The hypothesis of C5 at the endpoint [/pushes]. *)
Lemma buildRequest_method_and_body_witness :
  parse_no_ctl (HOST +:+ "/pushes") = None
  ∧ (∃ r, buildRequest parse_no_ctl c200 "/pushes" None w_note = (Returned r, w_note)
          ∧ http.Method r = "GET" ∧ http.Body r = None)
  ∧ (∀ l, ∃ r body m,
        buildRequest parse_no_ctl c200 "/pushes" (Some l) w_note = (Returned r, w_note)
        ∧ http.Method r = "POST"
        ∧ http.Header_ r !! "Content-Type" = Some ["application/x-www-form-urlencoded"]
        ∧ http.Body r = Some body
        ∧ Values.ParseQuery body = (m, None)
        ∧ Values.pairs m ≡ₚ Values.pairs (deref w_note l)
        ∧ ∀ k, Values.at_key m k = Values.at_key (deref w_note l) k).
Proof.
  assert (Hurl : parse_no_ctl (HOST +:+ "/pushes") = None)
    by (vm_compute; reflexivity).
  exact (conj Hurl (buildRequest_method_and_body parse_no_ctl c200 "/pushes" w_note Hurl)).
Defined.

Example buildRequest_post :
  buildRequest parse_no_ctl c200 "/pushes" (Some 1%positive) w_note
  = (Returned (http.mkRequest "POST" "https://api.pushbullet.com/api/pushes"
                 {[ "Authorization" := ["Basic azo="];
                    "Content-Type" := ["application/x-www-form-urlencoded"] ]}
                 (Some "body=b&title=t&type=note")),
     w_note).
Proof. vm_compute. reflexivity. Qed.

(** A key without values leaves no trace in the body; the pairs are the
    same all the same. *)
Example Encode_drops_empty_keys :
  Values.Encode {[ "type" := ["list"]; "items" := [] ]} = "type=list"
  ∧ Values.ParseQuery "type=list" = ({[ "type" := ["list"] ]}, None).
Proof. split; vm_compute; reflexivity. Qed.

(** ** Lists *)

(** The hypothesis of C6 at the grocery list for device 5. *)
Lemma PushList_form_witness :
  parse_no_ctl (HOST +:+ "/pushes") = None
  ∧ ∃ req r w',
      PushList parse_no_ctl c200 5 "groceries" ["milk"; "eggs"] w_empty
      = (Returned (status_result r), w')
      ∧ trace w' = trace w_empty ++ [(req, r)]
      ∧ http.Method req = "POST"
      ∧ http.URL req = HOST +:+ "/pushes"
      ∧ body_values req "items" = ["milk"; "eggs"]
      ∧ body_values req "type" = ["list"]
      ∧ body_values req "title" = ["groceries"]
      ∧ body_values req "device_id"
        = (if decide (5%Z = allDevicesId) then [] else [strconv.Itoa 5])
      ∧ ∀ k, k ∉ ["items"; "type"; "title"; "device_id"] → body_values req k = [].
Proof.
  assert (Hurl : parse_no_ctl (HOST +:+ "/pushes") = None)
    by (vm_compute; reflexivity).
  exact (conj Hurl (PushList_form parse_no_ctl c200 5 "groceries" ["milk"; "eggs"]
                      w_empty Hurl)).
Defined.

Example PushList_groceries :
  trace (PushList parse_no_ctl c200 5 "groceries" ["milk"; "eggs"] w_empty).2
  = [(http.mkRequest "POST" "https://api.pushbullet.com/api/pushes"
        {[ "Authorization" := ["Basic azo="];
           "Content-Type" := ["application/x-www-form-urlencoded"] ]}
        (Some "device_id=5&items=milk&items=eggs&title=groceries&type=list"),
      inl resp200)].
Proof. vm_compute. reflexivity. Qed.

(** ** Notes *)

Example PushNoteToAll_request :
  trace (PushNoteToAll parse_no_ctl c200 "T" "B" w_empty).2
  = [(http.mkRequest "POST" "https://api.pushbullet.com/api/pushes"
        {[ "Authorization" := ["Basic azo="];
           "Content-Type" := ["application/x-www-form-urlencoded"] ]}
        (Some "body=B&title=T&type=note"),
      inl resp200)].
Proof. vm_compute. reflexivity. Qed.

(** The hypothesis of C7 at the note [T], [B]. *)
Lemma ToAll_is_targeted_with_sentinel_witness :
  parse_no_ctl (HOST +:+ "/pushes") = None
  ∧ PushNoteToAll parse_no_ctl c200 "T" "B" = PushNote parse_no_ctl c200 0 "T" "B"
  ∧ sends_form (PushNoteToAll parse_no_ctl c200 "T" "B" w_empty) w_empty
      (<["type" := ["note"]]> (<["title" := ["T"]]> (<["body" := ["B"]]> ∅))).
Proof.
  assert (Hurl : parse_no_ctl (HOST +:+ "/pushes") = None)
    by (vm_compute; reflexivity).
  split; [exact Hurl|]. split.
  - exact (proj1 (proj2 (proj1 (ToAll_is_targeted_with_sentinel parse_no_ctl c200)))
             "T" "B").
  - exact (proj1 (proj2 (ToAll_is_targeted_with_sentinel parse_no_ctl c200) Hurl w_empty)
             "T" "B").
Defined.

(** ** The caller's map *)

(** The hypotheses of C9 at device 42 and the note of [w_note]. *)
Lemma Push_mutates_payload_witness :
  (42%Z ≠ allDevicesId ∧ parse_no_ctl (HOST +:+ "/pushes") = None)
  ∧ ∃ res w',
      Push parse_no_ctl c200 42 (Some 1%positive) w_note = (Returned res, w')
      ∧ heap w' !! 1%positive
        = Some (<["device_id" := [strconv.Itoa 42]]> (deref w_note 1%positive))
      ∧ ∀ c2, ∃ req r w'',
          Push parse_no_ctl c2 allDevicesId (Some 1%positive) w'
          = (Returned (status_result r), w'')
          ∧ trace w'' = trace w' ++ [(req, r)]
          ∧ body_values req "device_id" = [strconv.Itoa 42].
Proof.
  assert (Hd : 42%Z ≠ allDevicesId) by discriminate.
  assert (Hurl : parse_no_ctl (HOST +:+ "/pushes") = None)
    by (vm_compute; reflexivity).
  split; [exact (conj Hd Hurl)|].
  exact (Push_mutates_payload parse_no_ctl c200 42 1%positive w_note Hd Hurl).
Defined.

Example Push_then_PushToAll :
  let w' := (Push parse_no_ctl c200 42 (Some 1%positive) w_note).2 in
  http.Body <$> (trace (PushToAll parse_no_ctl c200 (Some 1%positive) w').2).*1
  = [Some "body=b&device_id=42&title=t&type=note";
     Some "body=b&device_id=42&title=t&type=note"].
Proof. vm_compute. reflexivity. Qed.

(** ** The nil map *)

(** The hypotheses of C10 at device 5. *)
Lemma Push_nil_payload_witness :
  (5%Z ≠ allDevicesId ∧ parse_no_ctl (HOST +:+ "/pushes") = None)
  ∧ Push parse_no_ctl c200 5 None w_note
    = (Panicked (runtimeError "assignment to entry in nil map"), w_note)
  ∧ ∃ req r w',
      Push parse_no_ctl c200 allDevicesId None w_note
      = (Returned (status_result r), w')
      ∧ trace w' = trace w_note ++ [(req, r)]
      ∧ heap w' = heap w_note
      ∧ http.Method req = "GET"
      ∧ http.URL req = HOST +:+ "/pushes"
      ∧ http.Body req = None.
Proof.
  assert (Hd : 5%Z ≠ allDevicesId) by discriminate.
  assert (Hurl : parse_no_ctl (HOST +:+ "/pushes") = None)
    by (vm_compute; reflexivity).
  split; [exact (conj Hd Hurl)|].
  split.
  - exact (proj1 (Push_nil_payload parse_no_ctl c200 w_note) 5%Z Hd).
  - exact (proj2 (Push_nil_payload parse_no_ctl c200 w_note) Hurl).
Defined.

Example Push_nil_to_all :
  trace (Push parse_no_ctl c200 0 None w_empty).2
  = [(http.mkRequest "GET" "https://api.pushbullet.com/api/pushes"
        {[ "Authorization" := ["Basic azo="] ]} None,
      inl resp200)].
Proof. vm_compute. reflexivity. Qed.

(** * Further properties of the library routines *)

Module Values_more.

Import url Values url_facts Values_facts.

Lemma count_byte_app (c : ascii) (a b : string) :
  count_byte c (a +:+ b) = count_byte c a + count_byte c b.
Proof.
  induction a as [|c' a IH]; [done|].
  rewrite append_cons. cbn [count_byte]. rewrite IH. lia.
Qed.

Lemma count_byte_no_special (s : string) :
  no_special s = true →
  count_byte "&" s = 0 ∧ count_byte "=" s = 0 ∧ count_byte ";" s = 0.
Proof.
  induction s as [|c s IH]; [done|]. cbn [no_special count_byte].
  intros [Hc Hs]%andb_true_iff. destruct (IH Hs) as (-> & -> & ->).
  by destruct (sep_eqb c Hc) as (-> & -> & ->).
Qed.

Lemma count_byte_enc_pair (p : string * string) :
  count_byte "&" (enc_pair p) = 0
  ∧ count_byte "=" (enc_pair p) = 1
  ∧ count_byte ";" (enc_pair p) = 0.
Proof.
  unfold enc_pair. rewrite !count_byte_app.
  destruct (count_byte_no_special _ (QueryEscape_no_special p.1)) as (-> & -> & ->).
  destruct (count_byte_no_special _ (QueryEscape_no_special p.2)) as (-> & -> & ->).
  done.
Qed.

Lemma count_byte_amp_all (ps : list (string * string)) :
  count_byte "&" (amp_all ps) = length ps
  ∧ count_byte "=" (amp_all ps) = length ps
  ∧ count_byte ";" (amp_all ps) = 0.
Proof.
  induction ps as [|p ps (IH1 & IH2 & IH3)]; [done|].
  rewrite amp_all_cons. cbn [count_byte length]. rewrite !count_byte_app.
  destruct (count_byte_enc_pair p) as (-> & -> & ->).
  rewrite IH1, IH2, IH3. cbn. done.
Qed.

(** In the text written for a list of pairs every pair brings one equals
    sign, every pair but the first one ampersand, and none a semicolon. *)
Lemma count_byte_join (ps : list (string * string)) :
  count_byte "=" (join (enc_pair <$> ps)) = length ps
  ∧ count_byte "&" (join (enc_pair <$> ps)) = pred (length ps)
  ∧ count_byte ";" (join (enc_pair <$> ps)) = 0.
Proof.
  destruct ps as [|p ps]; [done|]. rewrite join_amp_all, !count_byte_app.
  destruct (count_byte_enc_pair p) as (-> & -> & ->).
  destruct (count_byte_amp_all ps) as (-> & -> & ->). done.
Qed.

Lemma join_eq_nil (ps : list (string * string)) :
  join (enc_pair <$> ps) = "" ↔ ps = [].
Proof.
  split; [|by intros ->]. destruct ps as [|p ps]; [done|].
  rewrite join_amp_all. intros [Hp _]%append_eq_nil.
  by destruct (enc_pair_nonempty p).
Qed.

Lemma pairs_at_nil (v : t) (keys : list string) :
  (∀ k, at_key v k = []) → pairs_at v keys = [].
Proof.
  intros Hv. unfold pairs_at. induction keys as [|k keys IH]; [done|].
  by rewrite bind_cons, IH, Hv.
Qed.

(** A form has no pair exactly when none of its keys has a value. *)
Lemma pairs_nil_iff (v : t) : pairs v = [] ↔ ∀ k, at_key v k = [].
Proof.
  split.
  - intros Hps k. rewrite <- at_key_decoded. unfold decoded. rewrite Hps.
    unfold at_key. cbn [foldl]. by rewrite lookup_empty.
  - intros Hv. by apply pairs_at_nil.
Qed.

Lemma elem_of_pairs_at_keys (v : t) (keys : list string) (k : string) :
  k ∈ (pairs_at v keys).*1 → k ∈ keys.
Proof.
  unfold pairs_at. induction keys as [|k' keys IH]; [done|].
  rewrite bind_cons, fmap_app, elem_of_app, <- list_fmap_compose.
  intros [Hk|Hk].
  - apply list_elem_of_fmap in Hk as (x & -> & _). apply list_elem_of_here.
  - apply list_elem_of_further. by apply IH.
Qed.

Lemma pairs_at_sorted (v : t) (keys : list string) :
  StronglySorted String.le keys →
  StronglySorted String.le (pairs_at v keys).*1.
Proof.
  induction 1 as [|k keys Hsorted IH Hk]; [constructor|].
  unfold pairs_at. rewrite bind_cons, fmap_app, <- list_fmap_compose.
  fold (pairs_at v keys).
  induction (at_key v k) as [|x xs IHx]; [done|].
  cbn [fmap list_fmap app compose fst]. constructor; [done|].
  apply Forall_app. split.
  - apply Forall_forall. intros k' (y & -> & _)%list_elem_of_fmap. done.
  - apply Forall_forall. intros k' Hk'%elem_of_pairs_at_keys.
    by eapply Forall_forall in Hk.
Qed.

Lemma sorted_keys_StronglySorted (v : t) : StronglySorted String.le (sorted_keys v).
Proof. apply StronglySorted_merge_sort; apply _. Qed.

End Values_more.

(** ** Escaping in user-info mode *)

Module url_more.

Import Byte8 url url_facts.

Lemma userinfo_plain_spec :
  ∀ c, shouldEscape c encodeUserPassword = negb (one_of userinfo_plain c).
Proof. by_bytes. Qed.

Lemma userinfo_unescaped_not_percent :
  ∀ c, shouldEscape c encodeUserPassword = false → Ascii.eqb c "%" = false.
Proof. by_bytes. Qed.

(** In user-info mode too, unescaping undoes escaping. *)
Lemma unescape_escape_userinfo (s : string) :
  unescape (escape s encodeUserPassword) encodeUserPassword = inl s.
Proof.
  induction s as [|c s IH]; [done|]. cbn [escape is_query].
  rewrite andb_false_r.
  destruct (shouldEscape c encodeUserPassword) eqn:Hesc.
  - cbn [unescape]. change (Ascii.eqb "%" "%") with true. cbn match.
    rewrite upperhex_hi_ishex, upperhex_lo_ishex. cbn [andb].
    by rewrite IH, unhex_upperhex.
  - cbn [unescape is_query]. rewrite (userinfo_unescaped_not_percent _ Hesc), IH.
    by rewrite andb_false_r.
Qed.

Lemma escape_userinfo_inj (s1 s2 : string) :
  escape s1 encodeUserPassword = escape s2 encodeUserPassword → s1 = s2.
Proof.
  intros Heq. pose proof (unescape_escape_userinfo s1) as H1.
  rewrite Heq, unescape_escape_userinfo in H1. by injection H1.
Qed.

Lemma length_append (a b : string) :
  String.length (a +:+ b) = String.length a + String.length b.
Proof.
  induction a as [|c a IH]; [done|]. rewrite append_cons. cbn. by rewrite IH.
Qed.

Lemma append_inj_r (t s1 s2 : string) : s1 +:+ t = s2 +:+ t → s1 = s2.
Proof.
  revert s2. induction s1 as [|c s1 IH]; intros [|c' s2] Heq; [done|..].
  - apply (f_equal String.length) in Heq.
    rewrite !length_append in Heq. cbn in Heq. lia.
  - apply (f_equal String.length) in Heq.
    rewrite !length_append in Heq. cbn in Heq. lia.
  - rewrite !append_cons in Heq. injection Heq as -> Heq. by rewrite (IH s2).
Qed.

Lemma length_escape (s : string) (mode : encoding) :
  (String.length s ≤ String.length (escape s mode))%nat.
Proof.
  induction s as [|c s IH]; [done|]. cbn [escape].
  destruct (_ && _); [cbn; lia|]. destruct (shouldEscape c mode); cbn; lia.
Qed.

(** A key is left as it is exactly when all its bytes are plain. *)
Lemma escape_userinfo_fixed (s : string) :
  escape s encodeUserPassword = s ↔ userinfo_safe s = true.
Proof.
  split; [|apply escape_userinfo_safe].
  unfold userinfo_safe. induction s as [|c s IH]; [done|].
  cbn [escape is_query list_ascii_of_string forallb]. rewrite andb_false_r.
  destruct (shouldEscape c encodeUserPassword) eqn:Hesc.
  - intros Heq. apply (f_equal String.length) in Heq. cbn in Heq.
    pose proof (length_escape s encodeUserPassword). lia.
  - intros [= Heq]. by rewrite (IH Heq).
Qed.

Lemma userinfo_safe_plain (s : string) :
  userinfo_safe s = forallb (one_of userinfo_plain) (list_ascii_of_string s).
Proof.
  unfold userinfo_safe. induction (list_ascii_of_string s) as [|c l IH]; [done|].
  cbn [forallb]. by rewrite IH, userinfo_plain_spec, negb_involutive.
Qed.

End url_more.

(** ** base64 is injective *)

Module base64_facts.

Import Byte8 base64.

Local Open Scope N_scope.

Lemma base64_value_encode_at (i : N) : i < 64 → base64_value (encode_at i) = Some i.
Proof.
  intros Hi. rewrite <- (N2Nat.id i).
  assert (Hn : (N.to_nat i < 64)%nat) by lia.
  generalize dependent (N.to_nat i). clear. intros n Hn.
  do 64 (destruct n as [|n]; [reflexivity|]). lia.
Qed.

Lemma six_bits_lt (x : N) : N.land x 63 < 64.
Proof.
  change 63 with (N.ones 6). rewrite N.land_ones. by apply N.mod_lt.
Qed.

Lemma sextet_inj (v v' k k' : N) :
  sextet v k = sextet v' k' →
  N.land (N.shiftr v k) 63 = N.land (N.shiftr v' k') 63.
Proof.
  unfold sextet. intros Heq.
  pose proof (base64_value_encode_at _ (six_bits_lt (N.shiftr v k))) as H1.
  pose proof (base64_value_encode_at _ (six_bits_lt (N.shiftr v' k'))) as H2.
  rewrite Heq, H2 in H1. by injection H1.
Qed.

Lemma sextet_not_padding (v k : N) : sextet v k ≠ StdPadding.
Proof.
  unfold sextet. intros Heq.
  pose proof (base64_value_encode_at _ (six_bits_lt (N.shiftr v k))) as H1.
  rewrite Heq in H1. discriminate.
Qed.

(** Equal sextets at [k]: equal bits from [k] to [k + 5]. *)
Lemma sextet_bits (v v' k j : N) :
  sextet v k = sextet v' k → k ≤ j < k + 6 → N.testbit v j = N.testbit v' j.
Proof.
  intros Heq%sextet_inj [Hlo Hhi].
  apply (f_equal (λ x, N.testbit x (j - k))) in Heq.
  rewrite !N.land_spec, !N.shiftr_spec' in Heq.
  replace (j - k + k) with j in Heq by lia.
  change 63 with (N.ones 6) in Heq.
  rewrite N.ones_spec_low, !andb_true_r in Heq by lia. done.
Qed.

Lemma byte_bits_high (x : ascii) (j : N) : 8 ≤ j → N.testbit (val x) j = false.
Proof.
  intros Hj. unfold val. pose proof (N_ascii_bounded x) as Hx.
  destruct (N.eq_dec (N_of_ascii x) 0) as [->|Hx0]; [apply N.bits_0|].
  apply N.bits_above_log2, N.log2_lt_pow2; [lia|].
  eapply N.lt_le_trans; [exact Hx|]. change 256 with (2 ^ 8).
  apply N.pow_le_mono_r; lia.
Qed.

Lemma zero_bits (j : N) : N.testbit 0 j = false.
Proof. apply N.bits_0. Qed.

(** The bits of a group are those of its bytes. *)
Lemma group_bits (a b c : N) (j : N) :
  (∀ i, 8 ≤ i → N.testbit b i = false) →
  (∀ i, 8 ≤ i → N.testbit c i = false) →
  N.testbit (base64_group a b c) j
  = if j <? 8 then N.testbit c j
    else if j <? 16 then N.testbit b (j - 8)
    else N.testbit a (j - 16).
Proof.
  intros Hb Hc. unfold base64_group. rewrite !N.lor_spec.
  destruct (N.ltb_spec j 8) as [H8|H8].
  - rewrite !N.shiftl_spec_low by lia. done.
  - rewrite (Hc j) by done. rewrite orb_false_r.
    destruct (N.ltb_spec j 16) as [H16|H16].
    + rewrite N.shiftl_spec_low by lia. by rewrite N.shiftl_spec_high' by lia.
    + rewrite !N.shiftl_spec_high' by lia. rewrite (Hb (j - 8)) by lia.
      by rewrite orb_false_r.
Qed.

(** Groups that agree on the bits from [8 * n] on agree on their bytes
    from the [n]-th on. *)
Lemma val_inj (x y : ascii) : val x = val y → x = y.
Proof.
  unfold val. intros Heq.
  by rewrite <- (ascii_N_embedding x), <- (ascii_N_embedding y), Heq.
Qed.

Lemma byte_eq_bits (x y : ascii) :
  (∀ j, j < 8 → N.testbit (val x) j = N.testbit (val y) j) → x = y.
Proof.
  intros Hbits. apply val_inj, N.bits_inj. intros j.
  destruct (N.lt_ge_cases j 8) as [Hj|Hj]; [by apply Hbits|].
  by rewrite !byte_bits_high.
Qed.

Lemma no_high_bits_val (x : ascii) : no_high_bits (val x).
Proof. intros i Hi. by apply byte_bits_high. Qed.

Lemma no_high_bits_0 : no_high_bits 0.
Proof. intros i _. apply N.bits_0. Qed.

(** Two groups with the same first two characters have the same first
    byte; with the same second and third character, the same second byte;
    with the same third and fourth character, the same third byte. *)
Lemma first_byte (a a' : ascii) (b c b' c' : N) :
  no_high_bits b → no_high_bits c → no_high_bits b' → no_high_bits c' →
  sextet (base64_group (val a) b c) 18 = sextet (base64_group (val a') b' c') 18 →
  sextet (base64_group (val a) b c) 12 = sextet (base64_group (val a') b' c') 12 →
  a = a'.
Proof.
  intros Hb Hc Hb' Hc' H18 H12. apply byte_eq_bits. intros j Hj.
  assert (Hbit : N.testbit (base64_group (val a) b c) (j + 16)
                 = N.testbit (base64_group (val a') b' c') (j + 16)).
  { destruct (N.lt_ge_cases (j + 16) 18).
    - apply (sextet_bits _ _ 12); [done|lia].
    - apply (sextet_bits _ _ 18); [done|lia]. }
  rewrite !group_bits in Hbit by done.
  replace (j + 16 <? 8) with false in Hbit by (symmetry; apply N.ltb_ge; lia).
  replace (j + 16 <? 16) with false in Hbit by (symmetry; apply N.ltb_ge; lia).
  by replace (j + 16 - 16) with j in Hbit by lia.
Qed.

Lemma second_byte (b b' : ascii) (a c a' c' : N) :
  no_high_bits c → no_high_bits c' →
  sextet (base64_group a (val b) c) 12 = sextet (base64_group a' (val b') c') 12 →
  sextet (base64_group a (val b) c) 6 = sextet (base64_group a' (val b') c') 6 →
  b = b'.
Proof.
  intros Hc Hc' H12 H6. apply byte_eq_bits. intros j Hj.
  assert (Hbit : N.testbit (base64_group a (val b) c) (j + 8)
                 = N.testbit (base64_group a' (val b') c') (j + 8)).
  { destruct (N.lt_ge_cases (j + 8) 12).
    - apply (sextet_bits _ _ 6); [done|lia].
    - apply (sextet_bits _ _ 12); [done|lia]. }
  rewrite !group_bits in Hbit by (done || apply no_high_bits_val).
  replace (j + 8 <? 8) with false in Hbit by (symmetry; apply N.ltb_ge; lia).
  replace (j + 8 <? 16) with true in Hbit by (symmetry; apply N.ltb_lt; lia).
  by replace (j + 8 - 8) with j in Hbit by lia.
Qed.

Lemma third_byte (c c' : ascii) (a b a' b' : N) :
  no_high_bits b → no_high_bits b' →
  sextet (base64_group a b (val c)) 6 = sextet (base64_group a' b' (val c')) 6 →
  sextet (base64_group a b (val c)) 0 = sextet (base64_group a' b' (val c')) 0 →
  c = c'.
Proof.
  intros Hb Hb' H6 H0. apply byte_eq_bits. intros j Hj.
  assert (Hbit : N.testbit (base64_group a b (val c)) j
                 = N.testbit (base64_group a' b' (val c')) j).
  { destruct (N.lt_ge_cases j 6).
    - apply (sextet_bits _ _ 0); [done|lia].
    - apply (sextet_bits _ _ 6); [done|lia]. }
  rewrite !group_bits in Hbit by (done || apply no_high_bits_val).
  by replace (j <? 8) with true in Hbit by (symmetry; apply N.ltb_lt; lia).
Qed.

Lemma group_one (a : N) : N.shiftl a 16 = base64_group a 0 0.
Proof. unfold base64_group. by rewrite N.shiftl_0_l, !N.lor_0_r. Qed.

Lemma group_two (a b : N) :
  N.lor (N.shiftl a 16) (N.shiftl b 8) = base64_group a b 0.
Proof. unfold base64_group. by rewrite N.lor_0_r. Qed.

Lemma EncodeToString_1 (a : ascii) :
  EncodeToString (String a "")
  = String (sextet (base64_group (val a) 0 0) 18)
      (String (sextet (base64_group (val a) 0 0) 12)
         (String StdPadding (String StdPadding ""))).
Proof. cbn [EncodeToString]. by rewrite group_one. Qed.

Lemma EncodeToString_2 (a b : ascii) :
  EncodeToString (String a (String b ""))
  = String (sextet (base64_group (val a) (val b) 0) 18)
      (String (sextet (base64_group (val a) (val b) 0) 12)
         (String (sextet (base64_group (val a) (val b) 0) 6)
            (String StdPadding ""))).
Proof. cbn [EncodeToString]. by rewrite group_two. Qed.

Lemma EncodeToString_3 (a b c : ascii) (rest : string) :
  EncodeToString (String a (String b (String c rest)))
  = String (sextet (base64_group (val a) (val b) (val c)) 18)
      (String (sextet (base64_group (val a) (val b) (val c)) 12)
         (String (sextet (base64_group (val a) (val b) (val c)) 6)
            (String (sextet (base64_group (val a) (val b) (val c)) 0)
               (EncodeToString rest)))).
Proof. reflexivity. Qed.

(** Induction on strings, three bytes at a time. *)
Lemma string_ind_3 (P : string → Prop) :
  P "" →
  (∀ a, P (String a "")) →
  (∀ a b, P (String a (String b ""))) →
  (∀ a b c s, P s → P (String a (String b (String c s)))) →
  ∀ s, P s.
Proof.
  intros H0 H1 H2 H3.
  assert (Hall : ∀ s, P s ∧ (∀ a, P (String a s))
                      ∧ ∀ a b, P (String a (String b s))).
  { induction s as [|c s (IH0 & IH1 & IH2)]; [by auto|].
    split; [apply IH1|]. split; [intros a; apply IH2|]. intros a b. by apply H3. }
  intros s. apply Hall.
Qed.

Lemma String_4_inj (x1 x2 x3 x4 y1 y2 y3 y4 : ascii) (r r' : string) :
  String x1 (String x2 (String x3 (String x4 r)))
  = String y1 (String y2 (String y3 (String y4 r'))) →
  x1 = y1 ∧ x2 = y2 ∧ x3 = y3 ∧ x4 = y4 ∧ r = r'.
Proof. inversion 1. auto. Qed.

(** [EncodeToString] sends different texts to different texts. *)
Lemma EncodeToString_inj (s1 s2 : string) :
  EncodeToString s1 = EncodeToString s2 → s1 = s2.
Proof.
  revert s1 s2.
  apply (string_ind_3 (λ s1, ∀ s2, EncodeToString s1 = EncodeToString s2 → s1 = s2)).
  - intros [|a' [|b' [|c' s2]]];
      rewrite ?EncodeToString_1, ?EncodeToString_2, ?EncodeToString_3; done.
  - intros a [|a' [|b' [|c' s2]]];
      rewrite ?EncodeToString_1, ?EncodeToString_2, ?EncodeToString_3;
      try done; intros (H18 & H12 & H6 & H0 & Hrest)%String_4_inj.
    + f_equal. by apply (first_byte a a' 0 0 0 0); try apply no_high_bits_0.
    + by destruct (sextet_not_padding _ _ (eq_sym H6)).
    + by destruct (sextet_not_padding _ _ (eq_sym H6)).
  - intros a b [|a' [|b' [|c' s2]]];
      rewrite ?EncodeToString_1, ?EncodeToString_2, ?EncodeToString_3;
      try done; intros (H18 & H12 & H6 & H0 & Hrest)%String_4_inj.
    + by destruct (sextet_not_padding _ _ H6).
    + assert (a = a') as <-.
      { by apply (first_byte a a' (val b) 0 (val b') 0);
          try apply no_high_bits_0; try apply no_high_bits_val. }
      f_equal. f_equal.
      by apply (second_byte b b' (val a) 0 (val a) 0); try apply no_high_bits_0.
    + by destruct (sextet_not_padding _ _ (eq_sym H0)).
  - intros a b c s1 IH [|a' [|b' [|c' s2]]];
      rewrite ?EncodeToString_1, ?EncodeToString_2, ?EncodeToString_3;
      try done; intros (H18 & H12 & H6 & H0 & Hrest)%String_4_inj.
    + by destruct (sextet_not_padding _ _ H6).
    + by destruct (sextet_not_padding _ _ H0).
    + assert (a = a') as <-.
      { by apply (first_byte a a' (val b) (val c) (val b') (val c'));
          try apply no_high_bits_val. }
      assert (b = b') as <-.
      { by apply (second_byte b b' (val a) (val c) (val a) (val c'));
          try apply no_high_bits_val. }
      assert (c = c') as <-.
      { by apply (third_byte c c' (val a) (val b) (val a) (val b));
          try apply no_high_bits_val. }
      by rewrite (IH s2).
Qed.

End base64_facts.

(** * Further properties of the package *)

Section Package_more.

Variable url_Parse_err : string → option error.
Variable json_Decode : string → deviceResponse + error.

Import Values_facts Values_more.

(** ** Every way a call can end *)

(** When the URL does not parse, [Push] panics: on the nil map before
    that, otherwise in [buildRequest], after the payload was updated. *)
Lemma Push_bad_url (c : Client) (deviceId : Z) (data : option loc) (w : World)
    (err : error) :
  url_Parse_err (HOST +:+ "/pushes") = Some err →
  ∃ v w', Push url_Parse_err c deviceId data w = (Panicked v, w')
          ∧ trace w' = trace w
          ∧ (deviceId = allDevicesId → w' = w)
          ∧ ∀ l', Some l' ≠ data → heap w' !! l' = heap w !! l'.
Proof.
  intros Hurl. unfold Push, mbind, Go_bind. case_decide as Hd.
  - destruct data as [l|].
    + cbv [Values_Set load store mbind Go_bind].
      rewrite (buildRequest_panics _ _ _ _ _ err) by done.
      eexists _, _. split; [done|]. split; [done|]. split; [done|].
      intros l' Hl'. cbn [heap]. rewrite lookup_insert_ne; [done|congruence].
    + by eexists _, _.
  - cbn [mret Go_ret]. rewrite (buildRequest_panics _ _ _ _ _ err) by done.
    by eexists _, _.
Qed.

(** The three ways in which [Push] ends. *)
Lemma Push_cases (c : Client) (deviceId : Z) (data : option loc) (w : World) :
  (∃ req,
     Push url_Parse_err c deviceId data w
     = (Returned (status_result (Client_http c (trace w) req)),
        exchanged w (match data with
                     | Some l =>
                         if decide (deviceId = allDevicesId) then heap w
                         else <[l := with_target deviceId (deref w l)]> (heap w)
                     | None => heap w
                     end) req (Client_http c (trace w) req))
     ∧ req = built c "/pushes" (with_target deviceId <$> (deref w <$> data)))
  ∨ (∃ v w', Push url_Parse_err c deviceId data w = (Panicked v, w')
             ∧ trace w' = trace w
             ∧ (deviceId = allDevicesId → w' = w)
             ∧ ∀ l', Some l' ≠ data → heap w' !! l' = heap w !! l').
Proof.
  destruct (url_Parse_err (HOST +:+ "/pushes")) as [err|] eqn:Hurl.
  { right. by apply (Push_bad_url _ _ _ _ err). }
  destruct (decide (deviceId = allDevicesId)) as [->|Hd].
  - left. eexists. rewrite Push_all_run by done. split; [|reflexivity].
    destruct data as [l|]; cbn [fmap option_fmap option_map]; unfold with_target;
      rewrite ?decide_True by done; done.
  - destruct data as [l|].
    + left. eexists. rewrite Push_one_run by done. split; [|reflexivity].
      cbn [fmap option_fmap option_map]. unfold with_target.
      rewrite !decide_False by done. done.
    + right. rewrite Push_nil_panics by done. by eexists _, _.
Qed.

(** The two ways in which [Devices] ends. *)
Lemma Devices_cases (c : Client) (w : World) :
  Devices url_Parse_err json_Decode c w
  = (Returned (devices_result json_Decode
                 (Client_http c (trace w) (built c "/devices" None))),
     exchanged w (heap w) (built c "/devices" None)
       (Client_http c (trace w) (built c "/devices" None)))
  ∨ ∃ v, Devices url_Parse_err json_Decode c w = (Panicked v, w).
Proof.
  destruct (url_Parse_err (HOST +:+ "/devices")) as [err|] eqn:Hurl.
  - right. exists err. unfold Devices, mbind, Go_bind.
    by rewrite (buildRequest_panics _ _ _ _ _ err).
  - left. by rewrite Devices_run.
Qed.

(** ** Failures of the transport *)

(** X1: when the transport fails on whatever it is asked, [Devices]
    returns no devices and the transport's error, and [Push], unless it is
    asked to write into the nil map, returns that error too; the error is
    the transport's own, and neither the status nor the decoder plays a
    part. *)
Theorem transport_error_is_returned (c : Client) (w : World) (err : error) :
  (∀ req, Client_http c (trace w) req = inr err) →
  (url_Parse_err (HOST +:+ "/devices") = None →
   ∃ w', Devices url_Parse_err json_Decode c w = (Returned ([], Some err), w')
         ∧ heap w' = heap w)
  ∧ (url_Parse_err (HOST +:+ "/pushes") = None →
     ∀ deviceId data,
       deviceId = allDevicesId ∨ data ≠ None →
       ∃ w', Push url_Parse_err c deviceId data w = (Returned (Some err), w')).
Proof.
  intros Hdown. split.
  - intros Hurl. rewrite Devices_run by done. cbn zeta. rewrite Hdown.
    by eexists.
  - intros Hurl deviceId data Hok.
    destruct (Push_cases c deviceId data w) as [(req & Hrun & _)|(v & w' & Hrun & _)].
    + rewrite Hrun, Hdown. by eexists.
    + exfalso. destruct Hok as [->|Hdata].
      * rewrite Push_all_run in Hrun by done. discriminate.
      * destruct data as [l|]; [|done].
        destruct (decide (deviceId = allDevicesId)) as [->|Hd].
        -- rewrite Push_all_run in Hrun by done. discriminate.
        -- rewrite Push_one_run in Hrun by done. discriminate.
Qed.

(** ** One exchange for each call *)

(** X2: a call of [Push] or [Devices] that returns has asked the transport
    exactly once, for the endpoint of the call, and has recorded that one
    exchange after those made before; a call that panics has asked for
    nothing.  There is no second attempt. *)
Theorem one_exchange_per_call (c : Client) (deviceId : Z) (data : option loc)
    (w : World) :
  match Push url_Parse_err c deviceId data w with
  | (Returned _, w') =>
      ∃ req, trace w' = trace w ++ [(req, Client_http c (trace w) req)]
             ∧ http.URL req = HOST +:+ "/pushes"
  | (Panicked _, w') => trace w' = trace w
  end
  ∧ match Devices url_Parse_err json_Decode c w with
    | (Returned _, w') =>
        ∃ req, trace w' = trace w ++ [(req, Client_http c (trace w) req)]
               ∧ http.URL req = HOST +:+ "/devices"
    | (Panicked _, w') => trace w' = trace w
    end.
Proof.
  split.
  - destruct (Push_cases c deviceId data w) as [(req & -> & ->)|(v & w' & -> & Htr & _)];
      [|done].
    eexists. split; [done|]. by destruct data.
  - destruct (Devices_cases c w) as [->|[v ->]]; [|done]. by eexists.
Qed.

(** ** What a call leaves of the heap *)

(** X3: [Devices] leaves every map as it was, and so does [Push] to all
    devices; [Push] to one device changes no map but the payload.  This
    holds however the call ends. *)
Theorem calls_keep_the_other_maps (c : Client) (deviceId : Z) (data : option loc)
    (w : World) :
  heap (Devices url_Parse_err json_Decode c w).2 = heap w
  ∧ heap (Push url_Parse_err c allDevicesId data w).2 = heap w
  ∧ ∀ l', Some l' ≠ data →
          heap (Push url_Parse_err c deviceId data w).2 !! l' = heap w !! l'.
Proof.
  split; [|split].
  - by destruct (Devices_cases c w) as [->|[v ->]].
  - destruct (Push_cases c allDevicesId data w)
      as [(req & -> & _)|(v & w' & -> & _ & Hsame & _)].
    + cbn [snd exchanged heap]. destruct data; [|done].
      by rewrite decide_True by done.
    + by rewrite Hsame.
  - intros l' Hl'.
    destruct (Push_cases c deviceId data w)
      as [(req & -> & _)|(v & w' & -> & _ & _ & Hframe)]; [|by apply Hframe].
    cbn [snd exchanged heap]. destruct data as [l|]; [|done].
    case_decide; [done|]. rewrite lookup_insert_ne; [done|congruence].
Qed.

(** ** The four shapes, to one device or to all *)

(** A new map pushed to a device: it is allocated, given its target and
    sent. *)
Lemma alloc_Push_run (c : Client) (deviceId : Z) (v : Values.t) (w : World) :
  url_Parse_err (HOST +:+ "/pushes") = None →
  (data ← alloc v; Push url_Parse_err c deviceId data) w
  = let l := fresh (dom (heap w)) in
    let req := built c "/pushes" (Some (with_target deviceId v)) in
    let r := Client_http c (trace w) req in
    (Returned (status_result r),
     exchanged w (<[l := with_target deviceId v]> (heap w)) req r).
Proof.
  intros Hurl. unfold mbind, Go_bind, alloc, with_target.
  destruct (decide (deviceId = allDevicesId)) as [->|Hd].
  - rewrite Push_all_run by done.
    cbn [fmap option_fmap option_map trace exchanged heap].
    by rewrite deref_insert.
  - rewrite Push_one_run by done. cbn [trace exchanged heap].
    by rewrite deref_insert, insert_insert_eq.
Qed.

Lemma alloc_Push_sends (c : Client) (deviceId : Z) (v : Values.t) (w : World) :
  url_Parse_err (HOST +:+ "/pushes") = None →
  sends_form ((data ← alloc v; Push url_Parse_err c deviceId data) w) w
    (with_target deviceId v).
Proof.
  intros Hurl. rewrite alloc_Push_run by done. eexists _, _, _.
  split; [done|]. split; [done|]. split; [done|]. split; [done|].
  intros k. apply body_values_built.
Qed.

(** X4: provided the URL parses, [PushNote], [PushAddress] and [PushLink]
    send one POST to [/pushes] whose body holds exactly the three fields of
    the shape, with the strings as they were passed, and [device_id] with
    the decimal text of the device unless the device is 0. *)
Theorem shapes_send_their_fields (c : Client) (deviceId : Z) (w : World) :
  url_Parse_err (HOST +:+ "/pushes") = None →
  (∀ title body,
     sends_form (PushNote url_Parse_err c deviceId title body w) w
       (with_target deviceId
          (<["type" := ["note"]]> (<["title" := [title]]>
             (<["body" := [body]]> ∅)))))
  ∧ (∀ name address,
       sends_form (PushAddress url_Parse_err c deviceId name address w) w
         (with_target deviceId
            (<["type" := ["address"]]> (<["name" := [name]]>
               (<["address" := [address]]> ∅)))))
  ∧ (∀ title u,
       sends_form (PushLink url_Parse_err c deviceId title u w) w
         (with_target deviceId
            (<["type" := ["link"]]> (<["title" := [title]]>
               (<["url" := [u]]> ∅))))).
Proof.
  intros Hurl. repeat split; intros; by apply alloc_Push_sends.
Qed.

Lemma alloc_Push_frame (c : Client) (deviceId : Z) (v : Values.t) (w : World)
    (l : loc) :
  is_Some (heap w !! l) →
  heap ((data ← alloc v; Push url_Parse_err c deviceId data) w).2 !! l
  = heap w !! l.
Proof.
  intros Hl. unfold mbind, Go_bind, alloc.
  assert (Hne : Some l ≠ Some (fresh (dom (heap w)))).
  { intros [= ->]. by apply (is_fresh (dom (heap w))), elem_of_dom. }
  destruct (Push_cases c deviceId (Some (fresh (dom (heap w))))
              (mkWorld (<[fresh (dom (heap w)) := v]> (heap w)) (trace w)))
    as [(req & -> & _)|(e & w' & -> & _ & _ & Hframe)].
  - cbn [snd exchanged heap]. case_decide.
    + rewrite lookup_insert_ne; [done|congruence].
    + rewrite !lookup_insert_ne; [done|congruence..].
  - cbn [snd]. rewrite Hframe by done. cbn [heap].
    rewrite lookup_insert_ne; [done|congruence].
Qed.

(** X5: the four shapes build their payload in a map of their own: a call
    of [PushNote], [PushAddress], [PushList] or [PushLink] leaves every map
    that existed before as it was, however the call ends. *)
Theorem shapes_keep_the_callers_maps (c : Client) (deviceId : Z) (w : World)
    (l : loc) :
  is_Some (heap w !! l) →
  (∀ title body,
     heap (PushNote url_Parse_err c deviceId title body w).2 !! l = heap w !! l)
  ∧ (∀ name address,
       heap (PushAddress url_Parse_err c deviceId name address w).2 !! l
       = heap w !! l)
  ∧ (∀ title items,
       heap (PushList url_Parse_err c deviceId title items w).2 !! l = heap w !! l)
  ∧ (∀ title u,
       heap (PushLink url_Parse_err c deviceId title u w).2 !! l = heap w !! l).
Proof.
  intros Hl. repeat split; intros; by apply alloc_Push_frame.
Qed.

(** ** One payload, pushed again *)

(** X6: a push to a device erases the target that an earlier push left
    in the payload: after [Push] to any device, [Push] of the same map to a
    device other than 0 sends what it would have sent at first, with its
    own [device_id] and nothing of the earlier one, and leaves the same map
    behind. *)
Theorem last_target_wins (c1 c2 : Client) (d1 d2 : Z) (l : loc) (w : World) :
  d2 ≠ allDevicesId →
  url_Parse_err (HOST +:+ "/pushes") = None →
  ∃ req r w2,
    Push url_Parse_err c2 d2 (Some l) (Push url_Parse_err c1 d1 (Some l) w).2
    = (Returned (status_result r), w2)
    ∧ trace w2 = trace (Push url_Parse_err c1 d1 (Some l) w).2 ++ [(req, r)]
    ∧ (∀ k, body_values req k = Values.at_key (with_target d2 (deref w l)) k)
    ∧ deref w2 l = with_target d2 (deref w l).
Proof.
  intros Hd2 Hurl. rewrite (Push_one_run _ c2) by done.
  eexists _, _, _. split; [done|]. split; [done|].
  assert (Hset : Values.Set_ (deref (Push url_Parse_err c1 d1 (Some l) w).2 l)
                   "device_id" (strconv.Itoa d2)
                 = with_target d2 (deref w l)).
  { unfold with_target. rewrite decide_False by done.
    destruct (decide (d1 = allDevicesId)) as [->|Hd1].
    - rewrite Push_all_run by done. done.
    - rewrite Push_one_run by done. cbn [snd]. unfold exchanged.
      rewrite deref_insert. unfold Values.Set_. by rewrite insert_insert_eq. }
  rewrite Hset. split.
  - intros k. apply body_values_built.
  - unfold exchanged. apply deref_insert.
Qed.

(** X7: two devices are never sent under the same [device_id]: pushes of
    one payload to different devices, neither of them 0, send different
    [device_id] values. *)
Theorem devices_are_told_apart (c : Client) (d1 d2 : Z) (l : loc) (w : World) :
  d1 ≠ allDevicesId → d2 ≠ allDevicesId → d1 ≠ d2 →
  url_Parse_err (HOST +:+ "/pushes") = None →
  ∃ req1 r1 w1 req2 r2 w2,
    Push url_Parse_err c d1 (Some l) w = (Returned (status_result r1), w1)
    ∧ trace w1 = trace w ++ [(req1, r1)]
    ∧ Push url_Parse_err c d2 (Some l) w = (Returned (status_result r2), w2)
    ∧ trace w2 = trace w ++ [(req2, r2)]
    ∧ body_values req1 "device_id" ≠ body_values req2 "device_id".
Proof.
  intros Hd1 Hd2 Hne Hurl. rewrite !Push_one_run by done.
  eexists _, _, _, _, _, _. do 4 (split; [done|]).
  rewrite !body_values_built. unfold Values.Set_, Values.at_key.
  rewrite !lookup_insert_eq. cbn [default].
  intros [= Heq]. apply Hne. by apply (inj pretty).
Qed.

(** ** Listing devices *)

(** X8: provided the URL parses, [Devices] sends a GET for [/devices]
    that has no body and no header but [Authorization], whatever the heap
    holds, and leaves the heap as it was. *)
Theorem Devices_sends_a_bare_GET (c : Client) (w : World) :
  url_Parse_err (HOST +:+ "/devices") = None →
  ∃ res req r w',
    Devices url_Parse_err json_Decode c w = (Returned res, w')
    ∧ trace w' = trace w ++ [(req, r)]
    ∧ heap w' = heap w
    ∧ http.Method req = "GET"
    ∧ http.URL req = HOST +:+ "/devices"
    ∧ http.Body req = None
    ∧ dom (http.Header_ req) = {[ "Authorization" ]}.
Proof.
  intros Hurl. rewrite Devices_run by done. eexists _, _, _, _.
  do 6 (split; [done|]). cbn [built http.Header_]. apply dom_singleton_L.
Qed.

(** X9: nothing is kept between two calls of [Devices]: the second call
    sends the same request again, and what it returns is read off the
    second answer alone. *)
Theorem Devices_asks_again (c : Client) (w : World) :
  url_Parse_err (HOST +:+ "/devices") = None →
  ∃ req r1 r2 w1 w2,
    Devices url_Parse_err json_Decode c w
    = (Returned (devices_result json_Decode r1), w1)
    ∧ Devices url_Parse_err json_Decode c w1
      = (Returned (devices_result json_Decode r2), w2)
    ∧ trace w2 = trace w ++ [(req, r1); (req, r2)]
    ∧ r1 = Client_http c (trace w) req
    ∧ r2 = Client_http c (trace w ++ [(req, r1)]) req.
Proof.
  intros Hurl. eexists _, _, _, _, _.
  split; [by apply Devices_run|]. split; [by apply Devices_run|].
  cbn [exchanged trace]. by rewrite <- app_assoc.
Qed.

(** X10: when the answer has status 200 and its body does not decode,
    [Devices] returns no devices and the decoder's error, as it is. *)
Theorem Devices_decode_error (c : Client) (w : World) (req : http.Request)
    (resp : http.Response) (err : error) :
  buildRequest url_Parse_err c "/devices" None w = (Returned req, w) →
  Client_http c (trace w) req = inl resp →
  http.StatusCode resp = http.StatusOK →
  json_Decode (http.RespBody resp) = inr err →
  ∃ w', Devices url_Parse_err json_Decode c w = (Returned ([], Some err), w')
        ∧ trace w' = trace w ++ [(req, inl resp)].
Proof.
  intros Hreq Hdo Hcode Hdec.
  unfold Devices, mbind, Go_bind. rewrite Hreq. unfold Do. rewrite Hdo.
  rewrite decide_False by (by intros []). rewrite Hdec. by eexists.
Qed.

End Package_more.

Section Decoders.

Variable url_Parse_err : string → option error.

(** X11: the body of an answer is decoded only when the status is 200:
    when the exchange fails or the status is another one, [Devices] does
    the same whatever the decoder would have said. *)
Theorem Devices_decodes_only_200 (dec1 dec2 : string → deviceResponse + error)
    (c : Client) (w : World) (req : http.Request) :
  buildRequest url_Parse_err c "/devices" None w = (Returned req, w) →
  match Client_http c (trace w) req with
  | inl resp => http.StatusCode resp ≠ http.StatusOK
  | inr _ => True
  end →
  Devices url_Parse_err dec1 c w = Devices url_Parse_err dec2 c w.
Proof.
  intros Hreq Hreply. unfold Devices, mbind, Go_bind. rewrite Hreq. unfold Do.
  destruct (Client_http c (trace w) req) as [resp|err]; [|done].
  by rewrite !decide_True by done.
Qed.

End Decoders.

Section Bodies.

Variable url_Parse_err : string → option error.

Import Values_facts Values_more.

(** ** The text of a body *)

(** X12: a payload that is a map always gives a POST with a body, also
    when the map is empty; the body is the empty text exactly when no key
    of the map has a value. *)
Theorem empty_form_empty_body (c : Client) (endpoint : string) (l : loc)
    (w : World) :
  url_Parse_err (HOST +:+ endpoint) = None →
  ∃ r body,
    buildRequest url_Parse_err c endpoint (Some l) w = (Returned r, w)
    ∧ http.Method r = "POST"
    ∧ http.Body r = Some body
    ∧ (body = "" ↔ ∀ k, Values.at_key (deref w l) k = []).
Proof.
  intros Hurl. rewrite buildRequest_run by done. eexists _, _.
  cbn [fmap option_fmap option_map built http.Method http.Body].
  do 3 (split; [done|]).
  by rewrite Encode_join, join_eq_nil, pairs_nil_iff.
Qed.

(** X13: keys and values cannot bring separators into a body: whatever
    bytes they hold, the body has one equals sign for each key/value pair
    of the payload, one ampersand between two pairs and no semicolon. *)
Theorem body_separators (c : Client) (endpoint : string) (l : loc) (w : World) :
  url_Parse_err (HOST +:+ endpoint) = None →
  ∃ r body,
    buildRequest url_Parse_err c endpoint (Some l) w = (Returned r, w)
    ∧ http.Body r = Some body
    ∧ count_byte "=" body = length (Values.pairs (deref w l))
    ∧ count_byte "&" body = pred (length (Values.pairs (deref w l)))
    ∧ count_byte ";" body = 0.
Proof.
  intros Hurl. rewrite buildRequest_run by done. eexists _, _.
  cbn [fmap option_fmap option_map built http.Body].
  do 2 (split; [done|]). rewrite Encode_join. apply count_byte_join.
Qed.

(** X14: the body lists the pairs of the payload key by key, the keys in
    increasing byte order and the values of a key in the order of its
    slice, each pair as escaped key, equals sign, escaped value, with
    ampersands between the pairs. *)
Theorem body_is_sorted_by_key (c : Client) (endpoint : string) (l : loc)
    (w : World) :
  url_Parse_err (HOST +:+ endpoint) = None →
  ∃ r ps,
    buildRequest url_Parse_err c endpoint (Some l) w = (Returned r, w)
    ∧ http.Body r = Some (Values.join (Values.enc_pair <$> ps))
    ∧ StronglySorted String.le ps.*1
    ∧ ∀ k, Values.values_of k ps = Values.at_key (deref w l) k.
Proof.
  intros Hurl. rewrite buildRequest_run by done. eexists _, _.
  cbn [fmap option_fmap option_map built http.Body].
  split; [done|]. split; [by rewrite Encode_join|]. split.
  - apply pairs_at_sorted, sorted_keys_StronglySorted.
  - intros k. unfold Values.pairs.
    rewrite values_of_pairs_at by apply sorted_keys_NoDup.
    case_decide as Hin; [done|].
    rewrite elem_of_sorted_keys in Hin. unfold Values.at_key.
    destruct (deref w l !! k) eqn:Hv; [|done]. destruct Hin. by eexists.
Qed.

End Bodies.

Section Credentials.

Variable url_Parse_err : string → option error.

Import url_more base64_facts.

(** ** The key in the header *)

Lemma buildRequest_inv (c : Client) (endpoint : string) (data : option loc)
    (w w' : World) (r : http.Request) :
  buildRequest url_Parse_err c endpoint data w = (Returned r, w') →
  r = built c endpoint (deref w <$> data) ∧ w' = w.
Proof.
  destruct (url_Parse_err (HOST +:+ endpoint)) as [err|] eqn:Hurl.
  - by rewrite (buildRequest_panics _ _ _ _ _ err).
  - rewrite buildRequest_run by done. by intros [= <- <-].
Qed.

(** X15: the [Authorization] header depends on the key and on nothing
    else, and it tells any two keys apart: two requests, whatever clients,
    endpoints, payloads and worlds they were built for, have the same
    [Authorization] header exactly when the keys are the same. *)
Theorem Authorization_identifies_the_key (c1 c2 : Client) (e1 e2 : string)
    (d1 d2 : option loc) (w1 w2 w1' w2' : World) (r1 r2 : http.Request) :
  buildRequest url_Parse_err c1 e1 d1 w1 = (Returned r1, w1') →
  buildRequest url_Parse_err c2 e2 d2 w2 = (Returned r2, w2') →
  http.Header_ r1 !! "Authorization" = http.Header_ r2 !! "Authorization"
  ↔ Key c1 = Key c2.
Proof.
  intros [-> _]%buildRequest_inv [-> _]%buildRequest_inv.
  rewrite !built_Authorization. split.
  - intros [= Heq]. apply (inj (String.app "")) in Heq.
    apply EncodeToString_inj, append_inj_r in Heq.
    by apply escape_userinfo_inj.
  - by intros ->.
Qed.

(** X16: the [Authorization] header is the one of HTTP Basic
    authentication for the key as user name and the empty password,
    [Basic] and the base64 text of the key and a colon, exactly when the
    key is made of letters, digits and the marks [-_.~$&+,;=] only. *)
Theorem Authorization_is_Basic_iff_plain (c : Client) (endpoint : string)
    (data : option loc) (w w' : World) (r : http.Request) :
  buildRequest url_Parse_err c endpoint data w = (Returned r, w') →
  http.Header_ r !! "Authorization"
  = Some ["Basic " +:+ base64.EncodeToString (Key c +:+ ":")]
  ↔ forallb (url.one_of userinfo_plain) (list_ascii_of_string (Key c)) = true.
Proof.
  intros [-> _]%buildRequest_inv.
  rewrite built_Authorization, <- userinfo_safe_plain, <- escape_userinfo_fixed.
  split.
  - intros [= Heq]. apply (inj (String.app "")) in Heq.
    by apply EncodeToString_inj, append_inj_r in Heq.
  - by intros ->.
Qed.

End Credentials.

Section Answers.

Variable url_Parse_err : string → option error.

(** X17: [Push] never looks at the body of the answer: two clients with
    the same key whose transports answer alike but for the body of the
    response make [Push] end alike, with the same result or the same
    panic. *)
Theorem Push_ignores_the_body (c1 c2 : Client) (deviceId : Z) (data : option loc)
    (w : World) :
  Key c1 = Key c2 →
  (∀ req, same_status (Client_http c1 (trace w) req) (Client_http c2 (trace w) req)) →
  (Push url_Parse_err c1 deviceId data w).1
  = (Push url_Parse_err c2 deviceId data w).1.
Proof.
  intros Hkey Hsame.
  assert (Hbuilt : ∀ form, built c1 "/pushes" form = built c2 "/pushes" form).
  { intros form. unfold built. by rewrite Hkey. }
  assert (Hres : ∀ req, status_result (Client_http c1 (trace w) req)
                        = status_result (Client_http c2 (trace w) req)).
  { intros req. specialize (Hsame req). unfold same_status in Hsame.
    destruct (Client_http c1 (trace w) req) as [resp1|err1],
             (Client_http c2 (trace w) req) as [resp2|err2]; try done.
    - destruct Hsame as [Hst Hcode]. cbn [status_result]. by rewrite Hst, Hcode.
    - by subst. }
  destruct (url_Parse_err (HOST +:+ "/pushes")) as [err|] eqn:Hurl.
  - unfold Push, mbind, Go_bind. case_decide as Hd.
    + destruct data as [l|]; [|done]. cbv [Values_Set load store mbind Go_bind].
      by rewrite !(buildRequest_panics _ _ _ _ _ err).
    + cbn [mret Go_ret]. by rewrite !(buildRequest_panics _ _ _ _ _ err).
  - destruct (decide (deviceId = allDevicesId)) as [->|Hd].
    + rewrite !Push_all_run by done. cbn [fst]. by rewrite Hbuilt, Hres.
    + destruct data as [l|].
      * rewrite !Push_one_run by done. cbn [fst]. by rewrite Hbuilt, Hres.
      * by rewrite !Push_nil_panics.
Qed.

End Answers.

(** * Concrete runs for the further properties *)

(** The hypotheses of X1 when the connection is refused. *)
Lemma transport_error_is_returned_witness :
  (∀ req, Client_http c_down (trace w_note) req = inr (urlError "connection refused"))
  ∧ (parse_no_ctl (HOST +:+ "/devices") = None →
     ∃ w', Devices parse_no_ctl decode_fixture c_down w_note
           = (Returned ([], Some (urlError "connection refused")), w')
           ∧ heap w' = heap w_note)
  ∧ (parse_no_ctl (HOST +:+ "/pushes") = None →
     ∀ deviceId data,
       deviceId = allDevicesId ∨ data ≠ None →
       ∃ w', Push parse_no_ctl c_down deviceId data w_note
             = (Returned (Some (urlError "connection refused")), w')).
Proof.
  assert (Hdown : ∀ req, Client_http c_down (trace w_note) req
                         = inr (urlError "connection refused")) by done.
  exact (conj Hdown
           (transport_error_is_returned parse_no_ctl decode_fixture c_down w_note
              (urlError "connection refused") Hdown)).
Defined.

Example Push_connection_refused :
  Push parse_no_ctl c_down 5 (Some 1%positive) w_note
  = (Returned (Some (urlError "connection refused")),
     mkWorld {[ 1%positive := {[ "type" := ["note"]; "title" := ["t"];
                                 "body" := ["b"]; "device_id" := ["5"] ]} ]}
       [(http.mkRequest "POST" "https://api.pushbullet.com/api/pushes"
           {[ "Authorization" := ["Basic azo="];
              "Content-Type" := ["application/x-www-form-urlencoded"] ]}
           (Some "body=b&device_id=5&title=t&type=note"),
         inr (urlError "connection refused"))]).
Proof. vm_compute. reflexivity. Qed.

(** The hypothesis of X3 at the link of [w_two], while the note is pushed. *)
Lemma calls_keep_the_other_maps_witness :
  Some 2%positive ≠ Some 1%positive
  ∧ heap (Push parse_no_ctl c200 5 (Some 1%positive) w_two).2 !! 2%positive
    = heap w_two !! 2%positive.
Proof.
  assert (Hne : Some 2%positive ≠ Some 1%positive) by discriminate.
  exact (conj Hne
           (proj2 (proj2 (calls_keep_the_other_maps parse_no_ctl decode_fixture
                            c200 5 (Some 1%positive) w_two)) 2%positive Hne)).
Defined.

(** The hypothesis of X4 at a note for device 42. *)
Lemma shapes_send_their_fields_witness :
  parse_no_ctl (HOST +:+ "/pushes") = None
  ∧ sends_form (PushNote parse_no_ctl c200 42 "T" "B" w_empty) w_empty
      (with_target 42
         (<["type" := ["note"]]> (<["title" := ["T"]]> (<["body" := ["B"]]> ∅)))).
Proof.
  assert (Hurl : parse_no_ctl (HOST +:+ "/pushes") = None)
    by (vm_compute; reflexivity).
  exact (conj Hurl
           (proj1 (shapes_send_their_fields parse_no_ctl c200 42 w_empty Hurl)
              "T" "B")).
Defined.

Example PushNote_42 :
  http.Body <$> (trace (PushNote parse_no_ctl c200 42 "T&x=1" "B b" w_empty).2).*1
  = [Some "body=B+b&device_id=42&title=T%26x%3D1&type=note"].
Proof. vm_compute. reflexivity. Qed.

Example PushAddress_to_all :
  http.Body <$> (trace (PushAddress parse_no_ctl c200 0 "home" "1 Main St" w_empty).2).*1
  = [Some "address=1+Main+St&name=home&type=address"].
Proof. vm_compute. reflexivity. Qed.

Example PushLink_7 :
  http.Body <$> (trace (PushLink parse_no_ctl c200 7 "go" "http://golang.org/?q=1" w_empty).2).*1
  = [Some "device_id=7&title=go&type=link&url=http%3A%2F%2Fgolang.org%2F%3Fq%3D1"].
Proof. vm_compute. reflexivity. Qed.

(** The hypothesis of X5 at the note of [w_note]. *)
Lemma shapes_keep_the_callers_maps_witness :
  is_Some (heap w_note !! 1%positive)
  ∧ heap (PushNote parse_no_ctl c200 42 "T" "B" w_note).2 !! 1%positive
    = heap w_note !! 1%positive.
Proof.
  assert (Hl : is_Some (heap w_note !! 1%positive)).
  { exists {[ "type" := ["note"]; "title" := ["t"]; "body" := ["b"] ]}.
    vm_compute. reflexivity. }
  exact (conj Hl
           (proj1 (shapes_keep_the_callers_maps parse_no_ctl c200 42 w_note
                     1%positive Hl) "T" "B")).
Defined.

(** The hypotheses of X6: the note pushed to device 42, then to device 7. *)
Lemma last_target_wins_witness :
  (7%Z ≠ allDevicesId ∧ parse_no_ctl (HOST +:+ "/pushes") = None)
  ∧ ∃ req r w2,
      Push parse_no_ctl c200 7 (Some 1%positive)
        (Push parse_no_ctl c204 42 (Some 1%positive) w_note).2
      = (Returned (status_result r), w2)
      ∧ trace w2
        = trace (Push parse_no_ctl c204 42 (Some 1%positive) w_note).2 ++ [(req, r)]
      ∧ (∀ k, body_values req k
              = Values.at_key (with_target 7 (deref w_note 1%positive)) k)
      ∧ deref w2 1%positive = with_target 7 (deref w_note 1%positive).
Proof.
  assert (Hd : 7%Z ≠ allDevicesId) by discriminate.
  assert (Hurl : parse_no_ctl (HOST +:+ "/pushes") = None)
    by (vm_compute; reflexivity).
  exact (conj (conj Hd Hurl)
           (last_target_wins parse_no_ctl c204 c200 42 7 1%positive w_note Hd Hurl)).
Defined.

Example Push_42_then_7 :
  http.Body <$> (trace (Push parse_no_ctl c200 7 (Some 1%positive)
                          (Push parse_no_ctl c204 42 (Some 1%positive) w_note).2).2).*1
  = [Some "body=b&device_id=42&title=t&type=note";
     Some "body=b&device_id=7&title=t&type=note"].
Proof. vm_compute. reflexivity. Qed.

(** The hypotheses of X7 at devices 5 and 7. *)
Lemma devices_are_told_apart_witness :
  (5%Z ≠ allDevicesId ∧ 7%Z ≠ allDevicesId ∧ 5%Z ≠ 7%Z
   ∧ parse_no_ctl (HOST +:+ "/pushes") = None)
  ∧ ∃ req1 r1 w1 req2 r2 w2,
      Push parse_no_ctl c200 5 (Some 1%positive) w_note
      = (Returned (status_result r1), w1)
      ∧ trace w1 = trace w_note ++ [(req1, r1)]
      ∧ Push parse_no_ctl c200 7 (Some 1%positive) w_note
        = (Returned (status_result r2), w2)
      ∧ trace w2 = trace w_note ++ [(req2, r2)]
      ∧ body_values req1 "device_id" ≠ body_values req2 "device_id".
Proof.
  assert (H5 : 5%Z ≠ allDevicesId) by discriminate.
  assert (H7 : 7%Z ≠ allDevicesId) by discriminate.
  assert (Hne : 5%Z ≠ 7%Z) by discriminate.
  assert (Hurl : parse_no_ctl (HOST +:+ "/pushes") = None)
    by (vm_compute; reflexivity).
  exact (conj (conj H5 (conj H7 (conj Hne Hurl)))
           (devices_are_told_apart parse_no_ctl c200 5 7 1%positive w_note
              H5 H7 Hne Hurl)).
Defined.

(** The hypothesis of X8 in a world that holds a note. *)
Lemma Devices_sends_a_bare_GET_witness :
  parse_no_ctl (HOST +:+ "/devices") = None
  ∧ ∃ res req r w',
      Devices parse_no_ctl decode_fixture c200 w_note = (Returned res, w')
      ∧ trace w' = trace w_note ++ [(req, r)]
      ∧ heap w' = heap w_note
      ∧ http.Method req = "GET"
      ∧ http.URL req = HOST +:+ "/devices"
      ∧ http.Body req = None
      ∧ dom (http.Header_ req) = {[ "Authorization" ]}.
Proof.
  assert (Hurl : parse_no_ctl (HOST +:+ "/devices") = None)
    by (vm_compute; reflexivity).
  exact (conj Hurl (Devices_sends_a_bare_GET parse_no_ctl decode_fixture c200 w_note Hurl)).
Defined.

(** The hypothesis of X9 at a server that answers 200 and then 401. *)
Lemma Devices_asks_again_witness :
  parse_no_ctl (HOST +:+ "/devices") = None
  ∧ ∃ req r1 r2 w1 w2,
      Devices parse_no_ctl decode_fixture c_once w_empty
      = (Returned (devices_result decode_fixture r1), w1)
      ∧ Devices parse_no_ctl decode_fixture c_once w1
        = (Returned (devices_result decode_fixture r2), w2)
      ∧ trace w2 = trace w_empty ++ [(req, r1); (req, r2)]
      ∧ r1 = Client_http c_once (trace w_empty) req
      ∧ r2 = Client_http c_once (trace w_empty ++ [(req, r1)]) req.
Proof.
  assert (Hurl : parse_no_ctl (HOST +:+ "/devices") = None)
    by (vm_compute; reflexivity).
  exact (conj Hurl (Devices_asks_again parse_no_ctl decode_fixture c_once w_empty Hurl)).
Defined.

Example Devices_twice :
  (Devices parse_no_ctl decode_fixture c_once w_empty).1
  = Returned ([Some phone; Some phone; Some tablet], None)
  ∧ (Devices parse_no_ctl decode_fixture c_once
       (Devices parse_no_ctl decode_fixture c_once w_empty).2).1
    = Returned ([], Some (errorString "401 Unauthorized")).
Proof. split; vm_compute; reflexivity. Qed.

(** The hypotheses of X10 at a 200 answer that is a web page. *)
Lemma Devices_decode_error_witness :
  (buildRequest parse_no_ctl c_html "/devices" None w_empty
   = (Returned (built c_html "/devices" None), w_empty)
   ∧ Client_http c_html (trace w_empty) (built c_html "/devices" None) = inl resp_html
   ∧ http.StatusCode resp_html = http.StatusOK
   ∧ decode_fixture (http.RespBody resp_html) = inr (jsonError "invalid character"))
  ∧ ∃ w', Devices parse_no_ctl decode_fixture c_html w_empty
          = (Returned ([], Some (jsonError "invalid character")), w')
          ∧ trace w' = trace w_empty ++ [(built c_html "/devices" None, inl resp_html)].
Proof.
  assert (Hreq : buildRequest parse_no_ctl c_html "/devices" None w_empty
                 = (Returned (built c_html "/devices" None), w_empty))
    by (vm_compute; reflexivity).
  assert (Hdo : Client_http c_html (trace w_empty) (built c_html "/devices" None)
                = inl resp_html) by reflexivity.
  assert (Hcode : http.StatusCode resp_html = http.StatusOK) by reflexivity.
  assert (Hdec : decode_fixture (http.RespBody resp_html)
                 = inr (jsonError "invalid character"))
    by (vm_compute; reflexivity).
  split; [exact (conj Hreq (conj Hdo (conj Hcode Hdec)))|].
  exact (Devices_decode_error parse_no_ctl decode_fixture c_html w_empty
           (built c_html "/devices" None) resp_html (jsonError "invalid character")
           Hreq Hdo Hcode Hdec).
Defined.

(** The hypotheses of X11 at a 404 answer and two decoders. *)
Lemma Devices_decodes_only_200_witness :
  (buildRequest parse_no_ctl c404 "/devices" None w_empty
   = (Returned (built c404 "/devices" None), w_empty)
   ∧ match Client_http c404 (trace w_empty) (built c404 "/devices" None) with
     | inl resp => http.StatusCode resp ≠ http.StatusOK
     | inr _ => True
     end)
  ∧ Devices parse_no_ctl decode_fixture c404 w_empty
    = Devices parse_no_ctl decode_anything c404 w_empty.
Proof.
  assert (Hreq : buildRequest parse_no_ctl c404 "/devices" None w_empty
                 = (Returned (built c404 "/devices" None), w_empty))
    by (vm_compute; reflexivity).
  assert (Hreply : match Client_http c404 (trace w_empty) (built c404 "/devices" None) with
                   | inl resp => http.StatusCode resp ≠ http.StatusOK
                   | inr _ => True
                   end) by (cbn; discriminate).
  split; [exact (conj Hreq Hreply)|].
  exact (Devices_decodes_only_200 parse_no_ctl decode_fixture decode_anything c404
           w_empty (built c404 "/devices" None) Hreq Hreply).
Defined.

(** The hypothesis of X12 at the note of [w_note]. *)
Lemma empty_form_empty_body_witness :
  parse_no_ctl (HOST +:+ "/pushes") = None
  ∧ ∃ r body,
      buildRequest parse_no_ctl c200 "/pushes" (Some 1%positive) w_note
      = (Returned r, w_note)
      ∧ http.Method r = "POST"
      ∧ http.Body r = Some body
      ∧ (body = "" ↔ ∀ k, Values.at_key (deref w_note 1%positive) k = []).
Proof.
  assert (Hurl : parse_no_ctl (HOST +:+ "/pushes") = None)
    by (vm_compute; reflexivity).
  exact (conj Hurl
           (empty_form_empty_body parse_no_ctl c200 "/pushes" 1%positive w_note Hurl)).
Defined.

Example Push_empty_map :
  trace (Push parse_no_ctl c200 0 (Some 1%positive) (mkWorld {[ 1%positive := ∅ ]} [])).2
  = [(http.mkRequest "POST" "https://api.pushbullet.com/api/pushes"
        {[ "Authorization" := ["Basic azo="];
           "Content-Type" := ["application/x-www-form-urlencoded"] ]}
        (Some ""),
      inl resp200)].
Proof. vm_compute. reflexivity. Qed.

Example PushList_without_items :
  http.Body <$> (trace (PushList parse_no_ctl c200 0 "empty" [] w_empty).2).*1
  = [Some "title=empty&type=list"].
Proof. vm_compute. reflexivity. Qed.

(** The hypothesis of X13 at the note of [w_note]. *)
Lemma body_separators_witness :
  parse_no_ctl (HOST +:+ "/pushes") = None
  ∧ ∃ r body,
      buildRequest parse_no_ctl c200 "/pushes" (Some 1%positive) w_note
      = (Returned r, w_note)
      ∧ http.Body r = Some body
      ∧ count_byte "=" body = length (Values.pairs (deref w_note 1%positive))
      ∧ count_byte "&" body = pred (length (Values.pairs (deref w_note 1%positive)))
      ∧ count_byte ";" body = 0.
Proof.
  assert (Hurl : parse_no_ctl (HOST +:+ "/pushes") = None)
    by (vm_compute; reflexivity).
  exact (conj Hurl (body_separators parse_no_ctl c200 "/pushes" 1%positive w_note Hurl)).
Defined.

(** The hypothesis of X14 at the note of [w_note]. *)
Lemma body_is_sorted_by_key_witness :
  parse_no_ctl (HOST +:+ "/pushes") = None
  ∧ ∃ r ps,
      buildRequest parse_no_ctl c200 "/pushes" (Some 1%positive) w_note
      = (Returned r, w_note)
      ∧ http.Body r = Some (Values.join (Values.enc_pair <$> ps))
      ∧ StronglySorted String.le ps.*1
      ∧ ∀ k, Values.values_of k ps = Values.at_key (deref w_note 1%positive) k.
Proof.
  assert (Hurl : parse_no_ctl (HOST +:+ "/pushes") = None)
    by (vm_compute; reflexivity).
  exact (conj Hurl
           (body_is_sorted_by_key parse_no_ctl c200 "/pushes" 1%positive w_note Hurl)).
Defined.

(** The hypotheses of X15 at two clients with the key [k]. *)
Lemma Authorization_identifies_the_key_witness :
  (buildRequest parse_no_ctl c200 "/devices" None w_empty
   = (Returned (built c200 "/devices" None), w_empty)
   ∧ buildRequest parse_no_ctl c404 "/pushes" (Some 1%positive) w_note
     = (Returned (built c404 "/pushes" (Some (deref w_note 1%positive))), w_note))
  ∧ (http.Header_ (built c200 "/devices" None) !! "Authorization"
     = http.Header_ (built c404 "/pushes" (Some (deref w_note 1%positive)))
         !! "Authorization"
     ↔ Key c200 = Key c404).
Proof.
  assert (H1 : buildRequest parse_no_ctl c200 "/devices" None w_empty
               = (Returned (built c200 "/devices" None), w_empty))
    by (vm_compute; reflexivity).
  assert (H2 : buildRequest parse_no_ctl c404 "/pushes" (Some 1%positive) w_note
               = (Returned (built c404 "/pushes" (Some (deref w_note 1%positive))),
                  w_note))
    by (vm_compute; reflexivity).
  exact (conj (conj H1 H2)
           (Authorization_identifies_the_key parse_no_ctl c200 c404 "/devices"
              "/pushes" None (Some 1%positive) w_empty w_note w_empty w_note
              _ _ H1 H2)).
Defined.

(** The hypothesis of X16 at the key [k]. *)
Lemma Authorization_is_Basic_iff_plain_witness :
  buildRequest parse_no_ctl c200 "/devices" None w_empty
  = (Returned (built c200 "/devices" None), w_empty)
  ∧ (http.Header_ (built c200 "/devices" None) !! "Authorization"
     = Some ["Basic " +:+ base64.EncodeToString (Key c200 +:+ ":")]
     ↔ forallb (url.one_of userinfo_plain) (list_ascii_of_string (Key c200)) = true).
Proof.
  assert (H1 : buildRequest parse_no_ctl c200 "/devices" None w_empty
               = (Returned (built c200 "/devices" None), w_empty))
    by (vm_compute; reflexivity).
  exact (conj H1
           (Authorization_is_Basic_iff_plain parse_no_ctl c200 "/devices" None
              w_empty w_empty _ H1)).
Defined.

(** The hypotheses of X17 at two servers that answer 200 with different
    bodies. *)
Lemma Push_ignores_the_body_witness :
  (Key c200 = Key c_html
   ∧ ∀ req, same_status (Client_http c200 (trace w_note) req)
              (Client_http c_html (trace w_note) req))
  ∧ (Push parse_no_ctl c200 5 (Some 1%positive) w_note).1
    = (Push parse_no_ctl c_html 5 (Some 1%positive) w_note).1.
Proof.
  assert (Hkey : Key c200 = Key c_html) by reflexivity.
  assert (Hsame : ∀ req, same_status (Client_http c200 (trace w_note) req)
                           (Client_http c_html (trace w_note) req))
    by (intros req; split; reflexivity).
  exact (conj (conj Hkey Hsame)
           (Push_ignores_the_body parse_no_ctl c200 c_html 5 (Some 1%positive)
              w_note Hkey Hsame)).
Defined.
